(** * mrvaserver: the process bootstraps and the orchestration contracts

    The repository holds two revisions of the server's [main] (both in
    [main.go]).  Each parses four flags, applies the log level, derives a
    default database root, installs the signal handler and then assembles
    the backends selected by [--mode] before handing them to
    [server.NewCommanderSingle].

    [main] is an effectful program.  It is embedded here as a function over
    an explicit machine state (the flag variables, the trace of observable
    calls, the deferred calls) in a small monad that can stop the process:
    [os.Exit], a plain [return], or a blocking call that never returns.
    Everything the outside world decides (the result of [os.Executable], of
    the [deploy.Init...] calls, the signal that arrives) is read from a
    [World] record. *)

From stdpp Require Import base option list gmap strings.
From Stdlib Require Import ZArith String Ascii Bool Lia.

Local Open Scope Z_scope.
Local Open Scope string_scope.

(** ** Go prelude *)

(** A Go [error] value, by its message. *)
Definition error := string.

(** A Go [(T, error)] result pair. *)
Inductive result (A : Type) : Type :=
| Ok (a : A)
| Err (e : error).
Arguments Ok {A} a.
Arguments Err {A} e.

Definition is_Err {A} (r : result A) : bool :=
  match r with Ok _ => false | Err _ => true end.

(** [syscall.SIGINT], [syscall.SIGTERM]. *)
Inductive Signal : Type := SIGINT | SIGTERM.

(** [slog.LevelDebug] and its siblings. *)
Inductive Level : Type := LevelDebug | LevelInfo | LevelWarn | LevelError.

(** The newline of the [log.Printf] format strings. *)
Definition nl : string := String (ascii_of_nat 10) EmptyString.

(** [%t] of [log.Printf]. *)
Definition fmt_bool (b : bool) : string := if b then "true" else "false".

(** ** The packages of [mrvacommander] that [main] wires together

    Their code is outside this repository; [main] only calls their
    constructors.  Each interface of [server.Visibles] is a tagged union of
    the implementations that [main] can put into it, one tag per
    constructor call of the source. *)

Module queue.
(** The connection returned by [deploy.InitRabbitMQ]. *)
Record RabbitMQQueue : Type := { rmq_handle : nat }.
Inductive Queue : Type :=
| QueueSingle (numWorkers : Z)
| RabbitMQ (q : RabbitMQQueue).
Definition NewQueueSingle (numWorkers : Z) : Queue := QueueSingle numWorkers.
End queue.

Module state.
Inductive ServerState : Type :=
| LocalState (startingID : Z)
| PGState.
Definition NewLocalState (startingID : Z) : ServerState := LocalState startingID.
Definition NewPGState : ServerState := PGState.
End state.

Module artifactstore.
Record MinIOArtifactStore : Type := { minio_artifacts_handle : nat }.
Inductive Store : Type :=
| InMemoryArtifactStore
| MinIO (s : MinIOArtifactStore).
Definition NewInMemoryArtifactStore : Store := InMemoryArtifactStore.
End artifactstore.

Module qldbstore.
Record MinIOCodeQLDatabaseStore : Type := { minio_db_handle : nat }.
Record HEPCDatabaseStore : Type := { hepc_handle : nat }.
Inductive Store : Type :=
| LocalFilesystemCodeQLDatabaseStore (basePath : string)
| MinIO (s : MinIOCodeQLDatabaseStore)
| HEPC (s : HEPCDatabaseStore).
Definition NewLocalFilesystemCodeQLDatabaseStore (basePath : string) : Store :=
  LocalFilesystemCodeQLDatabaseStore basePath.
End qldbstore.

Module server.
(** [server.Visibles]: the four collaborators of the commander. *)
Record Visibles : Type := {
  Queue : queue.Queue;
  State : state.ServerState;
  Artifacts : artifactstore.Store;
  CodeQLDBStore : qldbstore.Store
}.
End server.

Module context.
(** [context.Background()] and the contexts derived from it by
    [context.WithCancel]. *)
Inductive Context : Type :=
| Background
| WithCancel (parent : Context).
End context.

Module mcc.
(** The part of [mcc.Config] that [main] reads: [config.Storage.StartingID]. *)
Record Storage : Type := { StartingID : Z }.
Record Config : Type := { Storage_ : Storage }.
End mcc.

(** ** What the world decides *)

Record World : Type := {
  (** [os.Executable()] *)
  os_Executable : result string;
  (** [filepath.Dir] *)
  filepath_Dir : string -> string;
  (** [mcc.LoadConfig(fname)] *)
  mcc_LoadConfig : string -> mcc.Config;
  (** [deploy.InitRabbitMQ(isAgent)] *)
  deploy_InitRabbitMQ : bool -> result queue.RabbitMQQueue;
  (** [deploy.InitMinIOArtifactStore()] *)
  deploy_InitMinIOArtifactStore : result artifactstore.MinIOArtifactStore;
  (** [deploy.InitMinIOCodeQLDatabaseStore()] *)
  deploy_InitMinIOCodeQLDatabaseStore : result qldbstore.MinIOCodeQLDatabaseStore;
  (** [deploy.InitHEPCDatabaseStore()] *)
  deploy_InitHEPCDatabaseStore : result qldbstore.HEPCDatabaseStore;
  (** the first signal delivered to [sigChan], if one ever is *)
  delivered : option Signal;
  (** whether the counter of the wait group handed to the agent reaches zero,
      that is, whether [wg.Wait()] returns *)
  wg_drains : bool
}.

(** ** The flag variables *)

(** The values behind the four pointers that [flag.Bool]/[flag.String]
    return, as [flag.Parse] leaves them. *)
Record Flags : Type := {
  helpFlag : bool;
  logLevel : string;
  mode : string;
  dbPathRoot : string
}.

Definition set_dbPathRoot (p : string) (f : Flags) : Flags :=
  {| helpFlag := helpFlag f; logLevel := logLevel f; mode := mode f;
     dbPathRoot := p |}.

(** ** Observable calls *)

(** The arguments of [agent.StartAndMonitorWorkers(ctx, as, ql, sq, n, &wg)];
    [wg] is the one wait group of the enclosing branch. *)
Record WorkerArgs : Type := {
  wa_ctx : context.Context;
  wa_artifacts : artifactstore.Store;
  wa_databases : qldbstore.Store;
  wa_queue : queue.Queue;
  wa_count : Z
}.

(** [flag_Usage] stands for one call of the usage closure as a whole: its
    [log.Printf] of the program name, [flag.PrintDefaults()] and its two
    [log.Println] lines are not events of their own. *)
Inductive Event : Type :=
| flag_Usage
| slog_SetLogLoggerLevel (l : Level)
| log_Printf (line : string)
| slog_Warn (msg : string)
| slog_Info (msg : string) (attrs : list (string * string))
| slog_Error (msg : string) (attrs : list (string * string))
| call_os_Executable
| call_LoadConfig (fname : string)
| signal_Notify (sigs : list Signal)
| call_NewQueueSingle (numWorkers : Z)
| call_NewLocalState (startingID : Z)
| call_NewPGState
| call_NewInMemoryArtifactStore
| call_NewLocalFilesystemCodeQLDatabaseStore (basePath : string)
| call_InitRabbitMQ (isAgent : bool)
| call_InitMinIOArtifactStore
| call_InitMinIOCodeQLDatabaseStore
| call_InitHEPCDatabaseStore
| call_NewCommanderSingle (v : server.Visibles)
| context_WithCancel (parent : context.Context)
| go_StartAndMonitorWorkers (a : WorkerArgs)
| recv_sigChan (s : Signal)
| call_cancel (ctx : context.Context)
| wg_Wait
| rabbitMQQueue_Close (q : queue.RabbitMQQueue).

(** ** The process monad *)

Inductive Outcome : Type :=
| Returned            (* [main] returned: exit status 0 *)
| Exited (code : Z)   (* [os.Exit(code)] *)
| Blocked.            (* a blocking call never returned *)

Definition exit_status (o : Outcome) : option Z :=
  match o with
  | Returned => Some 0
  | Exited c => Some c
  | Blocked => None
  end.

Record Machine : Type := {
  vars : Flags;
  trace : list Event;
  deferred : list Event      (* most recent [defer] first *)
}.

Inductive Step (A : Type) : Type :=
| Next (a : A) (m : Machine)
| Halt (o : Outcome) (m : Machine).
Arguments Next {A} a m.
Arguments Halt {A} o m.

Definition Proc (A : Type) : Type := Machine -> Step A.

(** [Proc] is a monad; stdpp's [x ← p; k] and [p;; k] sequence statements. *)
#[global] Instance Proc_ret : MRet Proc := fun A a m => Next a m.

#[global] Instance Proc_bind : MBind Proc := fun A B k p m =>
  match p m with
  | Next a m' => k a m'
  | Halt o m' => Halt o m'
  end.

Definition emit (e : Event) : Proc unit :=
  fun m => Next tt {| vars := vars m; trace := trace m ++ [e];
                      deferred := deferred m |}.

Definition get : Proc Flags := fun m => Next (vars m) m.

Definition put_dbPathRoot (p : string) : Proc unit :=
  fun m => Next tt {| vars := set_dbPathRoot p (vars m); trace := trace m;
                      deferred := deferred m |}.

(** [defer e] *)
Definition defer (e : Event) : Proc unit :=
  fun m => Next tt {| vars := vars m; trace := trace m;
                      deferred := e :: deferred m |}.

(** [os.Exit(code)]: the process stops at once; deferred calls do not run. *)
Definition os_Exit {A} (code : Z) : Proc A := fun m => Halt (Exited code) m.

(** [return] from [main] (or falling off its end): the deferred calls run,
    last registered first, and the process ends with status 0. *)
Definition return_ {A} : Proc A :=
  fun m => Halt Returned {| vars := vars m; trace := trace m ++ deferred m;
                            deferred := [] |}.

(** A call that never returns. *)
Definition block {A} : Proc A := fun m => Halt Blocked m.

Definition run (p : Proc unit) (f : Flags) : Outcome * Machine :=
  match p {| vars := f; trace := []; deferred := [] |} with
  | Next _ m => (Returned, m)
  | Halt o m => (o, m)
  end.

(** ** Statements shared by the two revisions of [main]

    The two files agree on everything up to the mode switch, except for the
    flag defaults and the configuration file, which only the first loads. *)

(** [switch *logLevel { ... }] *)
Definition parseLevel (l : string) : option Level :=
  if String.eqb l "debug" then Some LevelDebug
  else if String.eqb l "info" then Some LevelInfo
  else if String.eqb l "warn" then Some LevelWarn
  else if String.eqb l "error" then Some LevelError
  else None.

Definition applyLogLevel : Proc unit :=
  f ← get;
  match parseLevel (logLevel f) with
  | Some l => emit (slog_SetLogLoggerLevel l)
  | None =>
      emit (log_Printf ("Invalid logging verbosity level: " +:+ logLevel f));;
      os_Exit 1
  end.

(** [if *mode == "standalone" && *dbPathRoot == "" { ... }] *)
Definition defaultDBPathRoot (w : World) : Proc unit :=
  f ← get;
  if String.eqb (mode f) "standalone" && String.eqb (dbPathRoot f) "" then
    emit (slog_Warn "No database root path provided.");;
    emit call_os_Executable;;
    match os_Executable w with
    | Err err =>
        emit (slog_Error "Failed to get executable path" [("error", err)]);;
        os_Exit 1
    | Ok execPath =>
        put_dbPathRoot (filepath_Dir w execPath +:+ "/codeql/dbs/");;
        f' ← get;
        emit (slog_Info "Using default database root path"
                        [("dbPathRoot", dbPathRoot f')])
    end
  else mret tt.

(** The three [log.Printf] lines of the configuration summary. *)
Definition configSummary : Proc unit :=
  f ← get;
  emit (log_Printf ("Help: " +:+ fmt_bool (helpFlag f) +:+ nl));;
  emit (log_Printf ("Log Level: " +:+ logLevel f +:+ nl));;
  emit (log_Printf ("Mode: " +:+ mode f +:+ nl)).

(** [<-sigChan] *)
Definition recvSignal (w : World) : Proc Signal :=
  match delivered w with
  | Some s => emit (recv_sigChan s);; mret s
  | None => block
  end.

(** [wg.Wait()] *)
Definition waitGroupWait (w : World) : Proc unit :=
  emit wg_Wait;;
  if wg_drains w then mret tt else block.

(** ** First revision of [main]: standalone and container modes *)

Module main1.

(** The defaults of the four [flag] declarations. *)
Definition defaultFlags : Flags :=
  {| helpFlag := false; logLevel := "info"; mode := "standalone";
     dbPathRoot := "" |}.

(** [case "standalone":] *)
Definition standalone (w : World) (config : mcc.Config) : Proc unit :=
  f ← get;
  (* Assemble single-process version *)
  emit (call_NewQueueSingle 2);;
  let sq := queue.NewQueueSingle 2 in
  emit (call_NewLocalState (mcc.StartingID (mcc.Storage_ config)));;
  let ss := state.NewLocalState (mcc.StartingID (mcc.Storage_ config)) in
  emit call_NewInMemoryArtifactStore;;
  let as_ := artifactstore.NewInMemoryArtifactStore in
  emit (call_NewLocalFilesystemCodeQLDatabaseStore (dbPathRoot f));;
  let ql := qldbstore.NewLocalFilesystemCodeQLDatabaseStore (dbPathRoot f) in
  emit (call_NewCommanderSingle
          {| server.Queue := sq; server.State := ss;
             server.Artifacts := as_; server.CodeQLDBStore := ql |});;
  emit (context_WithCancel context.Background);;
  let ctx := context.WithCancel context.Background in
  emit (go_StartAndMonitorWorkers
          {| wa_ctx := ctx; wa_artifacts := as_; wa_databases := ql; wa_queue := sq;
             wa_count := 2 |});;
  emit (slog_Info "Started server and standalone agent" []);;
  recvSignal w;;
  emit (slog_Info "Shutting down..." []);;
  emit (call_cancel ctx);;
  waitGroupWait w;;
  emit (slog_Info "Agent shutdown complete" []).

(** [case "container":] *)
Definition container (w : World) (config : mcc.Config) : Proc unit :=
  let isAgent := false in
  emit (call_InitRabbitMQ isAgent);;
  match deploy_InitRabbitMQ w isAgent with
  | Err err =>
      emit (slog_Error "Failed to initialize RabbitMQ" [("error", err)]);;
      os_Exit 1
  | Ok rabbitMQQueue =>
      defer (rabbitMQQueue_Close rabbitMQQueue);;
      emit call_InitMinIOArtifactStore;;
      match deploy_InitMinIOArtifactStore w with
      | Err err =>
          emit (slog_Error "Failed to initialize artifact store"
                           [("error", err)]);;
          os_Exit 1
      | Ok artifacts =>
          emit call_InitMinIOCodeQLDatabaseStore;;
          match deploy_InitMinIOCodeQLDatabaseStore w with
          | Err err =>
              emit (slog_Error "Failed to initialize database store"
                               [("error", err)]);;
              os_Exit 1
          | Ok databases =>
              emit (call_NewLocalState (mcc.StartingID (mcc.Storage_ config)));;
              emit (call_NewCommanderSingle
                      {| server.Queue := queue.RabbitMQ rabbitMQQueue;
                         server.State :=
                           state.NewLocalState
                             (mcc.StartingID (mcc.Storage_ config));
                         server.Artifacts := artifactstore.MinIO artifacts;
                         server.CodeQLDBStore := qldbstore.MinIO databases |});;
              emit (slog_Info "Started server in container mode." []);;
              recvSignal w;;
              mret tt
          end
      end
  end.

(** [switch *mode { ... }] *)
Definition applyMode (w : World) (config : mcc.Config) : Proc unit :=
  f ← get;
  if String.eqb (mode f) "standalone" then standalone w config
  else if String.eqb (mode f) "container" then container w config
  else
    emit (slog_Error
            "Invalid value for --mode. Allowed values are: standalone, container, cluster"
            []);;
    os_Exit 1.

Definition main (w : World) : Proc unit :=
  f ← get;
  (if helpFlag f then emit flag_Usage;; return_ else mret tt);;
  applyLogLevel;;
  defaultDBPathRoot w;;
  emit (call_LoadConfig "mcconfig.toml");;
  let config := mcc_LoadConfig w "mcconfig.toml" in
  configSummary;;
  emit (signal_Notify [SIGINT; SIGTERM]);;
  applyMode w config;;
  emit (slog_Info "Server shutdown complete" []);;
  return_.

End main1.

(** ** Second revision of [main]: container mode only *)

Module main2.

Definition defaultFlags : Flags :=
  {| helpFlag := false; logLevel := "debug"; mode := "container";
     dbPathRoot := "" |}.

(** [case "container":] *)
Definition container (w : World) : Proc unit :=
  let isAgent := false in
  emit (call_InitRabbitMQ isAgent);;
  match deploy_InitRabbitMQ w isAgent with
  | Err err =>
      emit (slog_Error "Failed to initialize RabbitMQ" [("error", err)]);;
      os_Exit 1
  | Ok rabbitMQQueue =>
      defer (rabbitMQQueue_Close rabbitMQQueue);;
      emit call_InitMinIOArtifactStore;;
      match deploy_InitMinIOArtifactStore w with
      | Err err =>
          emit (slog_Error "Failed to initialize artifact store"
                           [("error", err)]);;
          os_Exit 1
      | Ok artifacts =>
          emit call_InitHEPCDatabaseStore;;
          match deploy_InitHEPCDatabaseStore w with
          | Err err =>
              emit (slog_Error "Failed to initialize database store"
                               [("error", err)]);;
              os_Exit 1
          | Ok databases =>
              emit call_NewPGState;;
              emit (call_NewCommanderSingle
                      {| server.Queue := queue.RabbitMQ rabbitMQQueue;
                         server.State := state.NewPGState;
                         server.Artifacts := artifactstore.MinIO artifacts;
                         server.CodeQLDBStore := qldbstore.HEPC databases |});;
              emit (slog_Info "Started server in container mode." []);;
              recvSignal w;;
              mret tt
          end
      end
  end.

(** [switch *mode { ... }] *)
Definition applyMode (w : World) : Proc unit :=
  f ← get;
  if String.eqb (mode f) "standalone" then
    emit (slog_Error
            "--mode standalone is deprecated. Allowed values are: container, cluster"
            []);;
    os_Exit 1
  else if String.eqb (mode f) "container" then container w
  else
    emit (slog_Error
            "Invalid value for --mode. Allowed values are: standalone, container, cluster"
            []);;
    os_Exit 1.

Definition main (w : World) : Proc unit :=
  f ← get;
  (if helpFlag f then emit flag_Usage;; return_ else mret tt);;
  applyLogLevel;;
  defaultDBPathRoot w;;
  configSummary;;
  emit (signal_Notify [SIGINT; SIGTERM]);;
  applyMode w;;
  emit (slog_Info "Server shutdown complete" []);;
  return_.

End main2.

(** The two revisions under one name. *)
Inductive Revision : Type := Rev1 | Rev2.

Definition bootstrap (r : Revision) (w : World) (f : Flags) : Outcome * Machine :=
  match r with
  | Rev1 => run (main1.main w) f
  | Rev2 => run (main2.main w) f
  end.

Definition outcome_of (r : Revision) (w : World) (f : Flags) : Outcome :=
  fst (bootstrap r w f).

Definition trace_of (r : Revision) (w : World) (f : Flags) : list Event :=
  trace (snd (bootstrap r w f)).

Definition vars_of (r : Revision) (w : World) (f : Flags) : Flags :=
  vars (snd (bootstrap r w f)).

(** ** Reading a trace *)

(** Calls that construct or connect a backend. *)
Definition assembles_backend (e : Event) : bool :=
  match e with
  | call_NewQueueSingle _ | call_NewLocalState _ | call_NewPGState
  | call_NewInMemoryArtifactStore
  | call_NewLocalFilesystemCodeQLDatabaseStore _
  | call_InitRabbitMQ _ | call_InitMinIOArtifactStore
  | call_InitMinIOCodeQLDatabaseStore | call_InitHEPCDatabaseStore => true
  | _ => false
  end.

Definition creates_commander (e : Event) : bool :=
  match e with call_NewCommanderSingle _ => true | _ => false end.

Definition loads_config (e : Event) : bool :=
  match e with call_LoadConfig _ => true | _ => false end.

Definition installs_signal_handler (e : Event) : bool :=
  match e with signal_Notify _ => true | _ => false end.

Definition creates_token (e : Event) : bool :=
  match e with context_WithCancel _ => true | _ => false end.

Definition starts_workers (e : Event) : bool :=
  match e with go_StartAndMonitorWorkers _ => true | _ => false end.

(** No event of the trace satisfies [p]. *)
Definition never (p : Event -> bool) (tr : list Event) : bool :=
  negb (existsb p tr).

(** The commanders created along a trace, in order. *)
Definition commanders (tr : list Event) : list server.Visibles :=
  flat_map (fun e => match e with
                     | call_NewCommanderSingle v => [v]
                     | _ => []
                     end) tr.

(** The process runs in mode [m]: the flags were accepted (no [--help], a
    known verbosity) and [--mode] is [m]. *)
Definition in_mode (m : string) (f : Flags) : Prop :=
  helpFlag f = false /\ parseLevel (logLevel f) <> None /\ mode f = m.

(** The database-store initialisation of the container branch:
    MinIO in the first revision, HEPC in the second. *)
Definition database_init_error (r : Revision) (w : World) : option error :=
  match r with
  | Rev1 => match deploy_InitMinIOCodeQLDatabaseStore w with
            | Err e => Some e | Ok _ => None end
  | Rev2 => match deploy_InitHEPCDatabaseStore w with
            | Err e => Some e | Ok _ => None end
  end.

Definition queue_init_error (w : World) : option error :=
  match deploy_InitRabbitMQ w false with Err e => Some e | Ok _ => None end.

Definition artifact_init_error (w : World) : option error :=
  match deploy_InitMinIOArtifactStore w with Err e => Some e | Ok _ => None end.

(** The error of the first initialisation that fails, in call order, with
    the message logged for it. *)
Definition first_init_failure (r : Revision) (w : World) : option (string * error) :=
  match queue_init_error w with
  | Some e => Some ("Failed to initialize RabbitMQ", e)
  | None =>
      match artifact_init_error w with
      | Some e => Some ("Failed to initialize artifact store", e)
      | None =>
          match database_init_error r w with
          | Some e => Some ("Failed to initialize database store", e)
          | None => None
          end
      end
  end.

(** The worker pools started along a trace, and the contexts cancelled. *)
Definition worker_pools (tr : list Event) : list WorkerArgs :=
  flat_map (fun e => match e with
                     | go_StartAndMonitorWorkers a => [a]
                     | _ => []
                     end) tr.

Definition cancelled (tr : list Event) : list context.Context :=
  flat_map (fun e => match e with call_cancel c => [c] | _ => [] end) tr.

(** The contexts created along a trace. *)
Definition tokens (tr : list Event) : list context.Context :=
  flat_map (fun e => match e with
                     | context_WithCancel parent => [context.WithCancel parent]
                     | _ => []
                     end) tr.

(** Every [q]-event of the trace has a [p]-event before it. *)
Fixpoint precedes (p q : Event -> bool) (tr : list Event) : bool :=
  match tr with
  | [] => true
  | e :: tr' => if p e then true else if q e then false else precedes p q tr'
  end.

(** The part of the trace before its first [p]-event. *)
Fixpoint before (p : Event -> bool) (tr : list Event) : list Event :=
  match tr with
  | [] => []
  | e :: tr' => if p e then [] else e :: before p tr'
  end.

(** A backend initialisation of the container branch whose call, in this
    world, returns an error. *)
Definition init_failed (w : World) (e : Event) : bool :=
  match e with
  | call_InitRabbitMQ isAgent => is_Err (deploy_InitRabbitMQ w isAgent)
  | call_InitMinIOArtifactStore => is_Err (deploy_InitMinIOArtifactStore w)
  | call_InitMinIOCodeQLDatabaseStore =>
      is_Err (deploy_InitMinIOCodeQLDatabaseStore w)
  | call_InitHEPCDatabaseStore => is_Err (deploy_InitHEPCDatabaseStore w)
  | _ => false
  end.

(** The run got as far as the mode switch: [signal.Notify] is the statement
    just before it. *)
Definition reaches_mode_switch (tr : list Event) : bool :=
  existsb installs_signal_handler tr.

Definition resolves_executable (e : Event) : bool :=
  match e with call_os_Executable => true | _ => false end.

Definition receives_signal (e : Event) : bool :=
  match e with recv_sigChan _ => true | _ => false end.

Definition cancels (e : Event) : bool :=
  match e with call_cancel _ => true | _ => false end.

Definition waits_for_workers (e : Event) : bool :=
  match e with wg_Wait => true | _ => false end.

Definition agent_shutdown_complete (e : Event) : bool :=
  match e with
  | slog_Info msg _ => String.eqb msg "Agent shutdown complete"
  | _ => false
  end.

(** ** What kind of backend each constructor yields

    The spec distinguishes, per abstraction, a local implementation from a
    networked or persistent one; the constructors are told apart by name. *)

(** In-process channel queue ([queue.NewQueueSingle]) as opposed to the
    broker client. *)
Definition in_process_queue (q : queue.Queue) : bool :=
  match q with queue.QueueSingle _ => true | queue.RabbitMQ _ => false end.

(** [state.NewPGState] is the persistent relational store;
    [state.NewLocalState] keeps its records, and the next identifier
    (starting from [startingID]), in process memory. *)
Definition persistent_state (s : state.ServerState) : bool :=
  match s with state.PGState => true | state.LocalState _ => false end.

Definition in_memory_artifacts (a : artifactstore.Store) : bool :=
  match a with
  | artifactstore.InMemoryArtifactStore => true
  | artifactstore.MinIO _ => false
  end.

Definition local_filesystem_datasets (d : qldbstore.Store) : bool :=
  match d with
  | qldbstore.LocalFilesystemCodeQLDatabaseStore _ => true
  | _ => false
  end.

(** A commander whose four collaborators all live in the one process. *)
Definition single_process (v : server.Visibles) : bool :=
  in_process_queue (server.Queue v)
  && negb (persistent_state (server.State v))
  && in_memory_artifacts (server.Artifacts v)
  && local_filesystem_datasets (server.CodeQLDBStore v).

(** The four verbosity names that [--loglevel] accepts. *)
Definition known_levels : list string := ["debug"; "info"; "warn"; "error"].

(** The [--mode] usage text of both revisions. *)
Definition mode_usage : string := "Set mode: standalone, container, cluster".

(** The message of the [default:] branch of the mode switch. *)
Definition invalid_mode_message : string :=
  "Invalid value for --mode. Allowed values are: standalone, container, cluster".

(** [sub] occurs in [s]. *)
Fixpoint mentions (sub s : string) : bool :=
  String.prefix sub s
  || match s with
     | EmptyString => false
     | String _ s' => mentions sub s'
     end.

(** ** Sample worlds and command lines *)

(** A world in which everything succeeds and SIGTERM arrives. *)
Definition calm : World :=
  {| os_Executable := Ok "/opt/mrva/bin/server";
     filepath_Dir := fun _ => "/opt/mrva/bin";
     mcc_LoadConfig := fun _ => {| mcc.Storage_ := {| mcc.StartingID := 1000 |} |};
     deploy_InitRabbitMQ := fun _ => Ok {| queue.rmq_handle := 1 |};
     deploy_InitMinIOArtifactStore := Ok {| artifactstore.minio_artifacts_handle := 2 |};
     deploy_InitMinIOCodeQLDatabaseStore := Ok {| qldbstore.minio_db_handle := 3 |};
     deploy_InitHEPCDatabaseStore := Ok {| qldbstore.hepc_handle := 4 |};
     delivered := Some SIGTERM;
     wg_drains := true |}.

(** As [calm], but the message broker cannot be reached. *)
Definition broker_down : World :=
  {| os_Executable := os_Executable calm;
     filepath_Dir := filepath_Dir calm;
     mcc_LoadConfig := mcc_LoadConfig calm;
     deploy_InitRabbitMQ := fun _ => Err "dial tcp: connection refused";
     deploy_InitMinIOArtifactStore := deploy_InitMinIOArtifactStore calm;
     deploy_InitMinIOCodeQLDatabaseStore := deploy_InitMinIOCodeQLDatabaseStore calm;
     deploy_InitHEPCDatabaseStore := deploy_InitHEPCDatabaseStore calm;
     delivered := delivered calm;
     wg_drains := wg_drains calm |}.

(** [server --loglevel=info --mode=container] *)
Definition container_flags : Flags :=
  {| helpFlag := false; logLevel := "info"; mode := "container";
     dbPathRoot := "" |}.

(** [server --loglevel=info --mode=cluster] *)
Definition cluster_flags : Flags :=
  {| helpFlag := false; logLevel := "info"; mode := "cluster";
     dbPathRoot := "" |}.

(** [server --help --loglevel=info --mode=cluster] *)
Definition help_cluster_flags : Flags :=
  {| helpFlag := true; logLevel := "info"; mode := "cluster";
     dbPathRoot := "" |}.

(** [server --loglevel=verbose --mode=container] *)
Definition verbose_flags : Flags :=
  {| helpFlag := false; logLevel := "verbose"; mode := "container";
     dbPathRoot := "" |}.

(** [server --loglevel=verbose --mode=standalone], no [--dbpath]. *)
Definition verbose_standalone_flags : Flags :=
  {| helpFlag := false; logLevel := "verbose"; mode := "standalone";
     dbPathRoot := "" |}.

(** [server --help --loglevel=info --mode=standalone], no [--dbpath]. *)
Definition help_standalone_flags : Flags :=
  {| helpFlag := true; logLevel := "info"; mode := "standalone";
     dbPathRoot := "" |}.

(** [server --help --loglevel=verbose --mode=container] *)
Definition help_verbose_flags : Flags :=
  {| helpFlag := true; logLevel := "verbose"; mode := "container";
     dbPathRoot := "" |}.

(** ** The state store contract

    The state store lives in [mrvacommander/pkg/state], outside this
    repository; of it, [main] only calls the two constructors.  The
    work-item operations below follow the contract of the design document
    (sections 3, 4.2 and 4.3). *)

Module store.

(** WorkItem states: [Enqueued -> Claimed -> Executing -> {Succeeded | Failed}]. *)
Inductive WorkItemStatus : Type :=
| Enqueued | Claimed | Executing | Succeeded | Failed.

#[global] Instance WorkItemStatus_eq_dec : EqDecision WorkItemStatus.
Proof. solve_decision. Defined.

Definition terminal (s : WorkItemStatus) : bool :=
  match s with Succeeded | Failed => true | _ => false end.

(** An item has started once it has left [Enqueued]. *)
Definition started (s : WorkItemStatus) : bool :=
  match s with Enqueued => false | _ => true end.

Definition is_succeeded (s : WorkItemStatus) : bool :=
  match s with Succeeded => true | _ => false end.

Definition is_failed (s : WorkItemStatus) : bool :=
  match s with Failed => true | _ => false end.

(** A work item is identified by its job and its number within the job. *)
Definition WorkItemID : Type := (Z * Z)%type.

Record WorkItem : Type := {
  dataset : string;
  status : WorkItemStatus;
  owner : option string;        (* the worker unit holding the claim *)
  attempts : nat;
  artifact : option string;     (* result artifact key, set on success *)
  failure : option string       (* error summary, set on failure *)
}.

#[global] Instance WorkItem_eq_dec : EqDecision WorkItem.
Proof. solve_decision. Defined.

(** The error taxonomy of section 7. *)
Inductive StoreError : Type :=
| TransportError | NotFound | Conflict | DispatchError | EngineFailure.

Record Store : Type := {
  nextID : Z;
  items : gmap WorkItemID WorkItem
}.

Definition with_item (id : WorkItemID) (it : WorkItem) (s : Store) : Store :=
  {| nextID := nextID s; items := <[id := it]> (items s) |}.

Definition succeed (result : string) (it : WorkItem) : WorkItem :=
  {| dataset := dataset it; status := Succeeded; owner := None;
     attempts := attempts it; artifact := Some result;
     failure := failure it |}.

(** Modelled from the spec: [CompleteWorkItem(id, result)] of the state
    store, whose implementation (package [state] of [mrvacommander]) is
    not in this repository.  It is the terminal transition into
    [Succeeded]; on an item that already succeeded it is a no-op when
    [result] is the recorded one and is rejected as [Conflict] otherwise.
    The spec is silent on the remaining cases; here an unknown identifier
    is [NotFound], an item that is not held by a worker ([Enqueued]) or
    that has [Failed] is [Conflict], and a rejected call changes nothing.
    The store after the call is returned together with the error, if any. *)
Definition CompleteWorkItem (id : WorkItemID) (result : string) (s : Store)
  : Store * option StoreError :=
  match items s !! id with
  | None => (s, Some NotFound)
  | Some it =>
      match status it with
      | Claimed | Executing => (with_item id (succeed result it) s, None)
      | Succeeded =>
          if decide (artifact it = Some result) then (s, None)
          else (s, Some Conflict)
      | Enqueued | Failed => (s, Some Conflict)
      end
  end.

(** Derived job status. *)
Inductive JobStatus : Type :=
| Submitted | Running | Completed | PartiallyFailed | JobFailed.

(** Modelled from the spec: the derived status of a job, a function of
    the states of its work items (section 4.3); the implementation is not
    in this repository.  The spec lists the five cases in this order, and
    they are read in this order: [Submitted] when no item has started,
    otherwise [Running] when some item is not terminal, otherwise (all
    terminal) [Completed], [Failed] or [PartiallyFailed] by whether all
    succeeded, all failed, or neither. *)
Definition job_status (states : list WorkItemStatus) : JobStatus :=
  if forallb (fun s => negb (started s)) states then Submitted
  else if existsb (fun s => negb (terminal s)) states then Running
  else if forallb is_succeeded states then Completed
  else if forallb is_failed states then JobFailed
  else PartiallyFailed.

(** The five cases of the spec taken word for word, each on its own, as a
    requirement on a candidate status function [f]. *)
Definition word_for_word (f : list WorkItemStatus -> JobStatus) : Prop :=
  forall states,
    states <> [] ->
    (forallb (fun s => negb (started s)) states = true -> f states = Submitted)
    /\ (existsb (fun s => negb (terminal s)) states = true -> f states = Running)
    /\ (forallb is_succeeded states = true -> f states = Completed)
    /\ (forallb terminal states = true
        /\ existsb is_failed states = true
        /\ existsb is_succeeded states = true -> f states = PartiallyFailed)
    /\ (forallb is_failed states = true -> f states = JobFailed).

(** A store holding one executing item, for examples. *)
Definition one_executing : Store :=
  {| nextID := 2;
     items := {[ (1, 1) := {| dataset := "github/codeql"; status := Executing;
                              owner := Some "worker-0"; attempts := 1%nat;
                              artifact := None; failure := None |} ]} |}.

End store.

(** ** Further readers of a trace, for the paths the mode switch shares *)

(** The deferred [rabbitMQQueue.Close()]. *)
Definition closes_queue (e : Event) : bool :=
  match e with rabbitMQQueue_Close _ => true | _ => false end.

(** One of the [deploy.Init...] calls of the container branches. *)
Definition is_init (e : Event) : bool :=
  match e with
  | call_InitRabbitMQ _ | call_InitMinIOArtifactStore
  | call_InitMinIOCodeQLDatabaseStore | call_InitHEPCDatabaseStore => true
  | _ => false
  end.

Definition init_calls (tr : list Event) : list Event :=
  List.filter is_init tr.

(** The database-store initialisation each revision calls. *)
Definition database_init_call (r : Revision) : Event :=
  match r with
  | Rev1 => call_InitMinIOCodeQLDatabaseStore
  | Rev2 => call_InitHEPCDatabaseStore
  end.

Definition sets_level (e : Event) : bool :=
  match e with slog_SetLogLoggerLevel _ => true | _ => false end.

(** The signals received along a trace. *)
Definition received (tr : list Event) : list Signal :=
  flat_map (fun e => match e with recv_sigChan s => [s] | _ => [] end) tr.

(** The last [n] events of a trace (all of it when it is shorter). *)
Definition last_events (n : nat) (tr : list Event) : list Event :=
  drop (List.length tr - n)%nat tr.

(** The same world with another signal delivery. *)
Definition with_delivered (d : option Signal) (w : World) : World :=
  {| os_Executable := os_Executable w;
     filepath_Dir := filepath_Dir w;
     mcc_LoadConfig := mcc_LoadConfig w;
     deploy_InitRabbitMQ := deploy_InitRabbitMQ w;
     deploy_InitMinIOArtifactStore := deploy_InitMinIOArtifactStore w;
     deploy_InitMinIOCodeQLDatabaseStore := deploy_InitMinIOCodeQLDatabaseStore w;
     deploy_InitHEPCDatabaseStore := deploy_InitHEPCDatabaseStore w;
     delivered := d;
     wg_drains := wg_drains w |}.

(** A trace with the identity of the received signal erased. *)
Definition forget_signal (e : Event) : Event :=
  match e with recv_sigChan _ => recv_sigChan SIGINT | _ => e end.

(** The message with which the second revision rejects standalone mode. *)
Definition deprecated_mode_message : string :=
  "--mode standalone is deprecated. Allowed values are: container, cluster".

(** A [log.Printf] call of [main]'s own body.  The output of the usage
    closure ([log.Printf], [flag.PrintDefaults] and two [log.Println]) is
    the single event [flag_Usage] and is not counted here. *)
Definition is_log_Printf (e : Event) : bool :=
  match e with log_Printf _ => true | _ => false end.

(** As [calm], but the artifact store cannot be reached: the broker
    connection is made first and the process then gives up. *)
Definition artifacts_down : World :=
  {| os_Executable := os_Executable calm;
     filepath_Dir := filepath_Dir calm;
     mcc_LoadConfig := mcc_LoadConfig calm;
     deploy_InitRabbitMQ := deploy_InitRabbitMQ calm;
     deploy_InitMinIOArtifactStore := Err "minio: connection refused";
     deploy_InitMinIOCodeQLDatabaseStore := deploy_InitMinIOCodeQLDatabaseStore calm;
     deploy_InitHEPCDatabaseStore := deploy_InitHEPCDatabaseStore calm;
     delivered := delivered calm;
     wg_drains := wg_drains calm |}.

(** As [calm], but the worker pool never drains. *)
Definition stuck_workers : World :=
  {| os_Executable := os_Executable calm;
     filepath_Dir := filepath_Dir calm;
     mcc_LoadConfig := mcc_LoadConfig calm;
     deploy_InitRabbitMQ := deploy_InitRabbitMQ calm;
     deploy_InitMinIOArtifactStore := deploy_InitMinIOArtifactStore calm;
     deploy_InitMinIOCodeQLDatabaseStore := deploy_InitMinIOCodeQLDatabaseStore calm;
     deploy_InitHEPCDatabaseStore := deploy_InitHEPCDatabaseStore calm;
     delivered := delivered calm;
     wg_drains := false |}.

(** [server --loglevel=info --mode=standalone --dbpath=/srv/dbs] *)
Definition standalone_dbpath_flags : Flags :=
  {| helpFlag := false; logLevel := "info"; mode := "standalone";
     dbPathRoot := "/srv/dbs" |}.

(** [server --loglevel=info --mode=standalone], no [--dbpath]. *)
Definition standalone_flags : Flags :=
  {| helpFlag := false; logLevel := "info"; mode := "standalone";
     dbPathRoot := "" |}.

(** ** Proof support *)

Ltac unfold_main :=
  unfold outcome_of, trace_of, vars_of, bootstrap, run,
    main1.main, main2.main, main1.applyMode, main2.applyMode,
    main1.standalone, main1.container, main2.container,
    applyLogLevel, defaultDBPathRoot, configSummary, recvSignal,
    waitGroupWait, emit, get, put_dbPathRoot, defer, os_Exit, return_, block,
    mbind, mret, Proc_bind, Proc_ret.

(** Case analysis on whatever the run is waiting for next, in program
    order: the flags first, then the answers of the world. *)
Ltac explore_step :=
  match goal with
  | |- context [parseLevel ?l] => destruct (parseLevel l) eqn:?
  | |- context [String.eqb ?a "standalone"] =>
      is_var a; destruct (String.eqb a "standalone") eqn:?
  | |- context [String.eqb ?a ""] =>
      is_var a; destruct (String.eqb a "") eqn:?
  | |- context [match os_Executable ?w with _ => _ end] =>
      destruct (os_Executable w) eqn:?
  | |- context [String.eqb ?a "container"] =>
      is_var a; destruct (String.eqb a "container") eqn:?
  | |- context [match deploy_InitRabbitMQ ?w ?b with _ => _ end] =>
      destruct (deploy_InitRabbitMQ w b) eqn:?
  | |- context [match deploy_InitMinIOArtifactStore ?w with _ => _ end] =>
      destruct (deploy_InitMinIOArtifactStore w) eqn:?
  | |- context [match deploy_InitMinIOCodeQLDatabaseStore ?w with _ => _ end] =>
      destruct (deploy_InitMinIOCodeQLDatabaseStore w) eqn:?
  | |- context [match deploy_InitHEPCDatabaseStore ?w with _ => _ end] =>
      destruct (deploy_InitHEPCDatabaseStore w) eqn:?
  | |- context [match delivered ?w with _ => _ end] =>
      destruct (delivered w) eqn:?
  | |- context [if wg_drains ?w then _ else _] =>
      destruct (wg_drains w) eqn:?
  end.

Ltac explore := simpl; repeat (explore_step; simpl).

(** Turn the boolean tests of a run into equations between strings. *)
Ltac norm_eqb :=
  repeat match goal with
         | H : String.eqb _ _ = true |- _ => apply String.eqb_eq in H
         | H : String.eqb _ _ = false |- _ => apply String.eqb_neq in H
         | H : (_ && _)%bool = true |- _ => apply andb_prop in H; destruct H
         end.

Lemma parseLevel_known l : parseLevel l <> None -> exists lv, parseLevel l = Some lv.
Proof. destruct (parseLevel l) as [lv|]; [eauto | congruence]. Qed.

Lemma parseLevel_unknown l : parseLevel l = None <-> ~ In l known_levels.
Proof.
  unfold parseLevel, known_levels. simpl.
  destruct (String.eqb_spec l "debug"); [subst; split; [discriminate | tauto] |].
  destruct (String.eqb_spec l "info"); [subst; split; [discriminate | tauto] |].
  destruct (String.eqb_spec l "warn"); [subst; split; [discriminate | tauto] |].
  destruct (String.eqb_spec l "error"); [subst; split; [discriminate | tauto] |].
  split; [intros _ [H|[H|[H|[H|[]]]]]; congruence | reflexivity].
Qed.

(** ** Claims about the bootstraps *)

(** Failures do occur: in container mode with accepted flags, if any of the
    three initialisations would return an error, the run calls one that
    does, exits with status 1 and creates no commander. *)
Lemma container_init_failure_by_flags (r : Revision) (w : World) (f : Flags) :
  in_mode "container" f ->
  queue_init_error w <> None \/ artifact_init_error w <> None
    \/ database_init_error r w <> None ->
  existsb (init_failed w) (trace_of r w f) = true
  /\ outcome_of r w f = Exited 1
  /\ commanders (trace_of r w f) = [].
Proof.
  intros (Hh & Hl & Hm) Hfail.
  destruct (parseLevel_known _ Hl) as [lv Hlv].
  destruct f as [h l m d]; simpl in *; subst h m.
  unfold queue_init_error, artifact_init_error, database_init_error in *.
  destruct r; unfold_main; simpl; rewrite Hlv; simpl.
  - destruct (deploy_InitRabbitMQ w false) as [q|e1] eqn:E1; simpl;
      [ destruct (deploy_InitMinIOArtifactStore w) as [a|e2] eqn:E2; simpl;
        [ destruct (deploy_InitMinIOCodeQLDatabaseStore w) as [s|e3] eqn:E3; simpl | ] | ].
    all: rewrite ?E1, ?E2, ?E3; simpl.
    all: try (repeat split; eauto using orb_true_r; fail).
    destruct Hfail as [H|[H|H]]; congruence.
  - destruct (deploy_InitRabbitMQ w false) as [q|e1] eqn:E1; simpl;
      [ destruct (deploy_InitMinIOArtifactStore w) as [a|e2] eqn:E2; simpl;
        [ destruct (deploy_InitHEPCDatabaseStore w) as [s|e3] eqn:E3; simpl | ] | ].
    all: rewrite ?E1, ?E2, ?E3; simpl.
    all: try (repeat split; eauto using orb_true_r; fail).
    destruct Hfail as [H|[H|H]]; congruence.
Qed.

(** C1. Whenever a run of either revision calls one of the backend
    initialisations (message queue, artifact store, database store) and the
    call fails, the run is in container mode, its last act is the
    [slog.Error] that logs that error, it exits with status 1, and no
    commander has been created: nothing can accept a job submission, and the
    process never reaches the wait for the shutdown signal. *)
Theorem C1_container_init_failure_exits (r : Revision) (w : World) (f : Flags) :
  existsb (init_failed w) (trace_of r w f) = true ->
  mode f = "container"
  /\ outcome_of r w f = Exited 1
  /\ (exists msg err,
        first_init_failure r w = Some (msg, err)
        /\ last (trace_of r w f) = Some (slog_Error msg [("error", err)]))
  /\ commanders (trace_of r w f) = []
  /\ never creates_commander (trace_of r w f) = true
  /\ never receives_signal (trace_of r w f) = true.
Proof.
  destruct f as [h l m d].
  unfold first_init_failure, queue_init_error, artifact_init_error,
    database_init_error.
  destruct r, h; unfold_main; explore; norm_eqb; subst.
  all: repeat match goal with H : _ = _ |- _ => rewrite H end; simpl.
  all: try (intros; discriminate).
  all: intros _; repeat split; eauto.
Qed.

(** A container start of the second revision with the broker down. *)
Lemma C1_witness :
  mode main2.defaultFlags = "container"
  /\ outcome_of Rev2 broker_down main2.defaultFlags = Exited 1
  /\ (exists msg err,
        first_init_failure Rev2 broker_down = Some (msg, err)
        /\ last (trace_of Rev2 broker_down main2.defaultFlags)
           = Some (slog_Error msg [("error", err)]))
  /\ commanders (trace_of Rev2 broker_down main2.defaultFlags) = []
  /\ never creates_commander (trace_of Rev2 broker_down main2.defaultFlags) = true
  /\ never receives_signal (trace_of Rev2 broker_down main2.defaultFlags) = true.
Proof.
  apply (C1_container_init_failure_exits Rev2 broker_down main2.defaultFlags).
  vm_compute. reflexivity.
Defined.

(** C3 fails for the first revision: with every backend up, its container
    branch hands the commander [state.NewLocalState(config.Storage.StartingID)],
    the in-memory store. *)
Lemma C3_counterexample :
  in_mode "container" container_flags
  /\ first_init_failure Rev1 calm = None
  /\ exists v,
       commanders (trace_of Rev1 calm container_flags) = [v]
       /\ server.State v = state.NewLocalState 1000
       /\ persistent_state (server.State v) = false.
Proof.
  split; [repeat split; vm_compute; congruence |].
  split; [reflexivity |].
  eexists. split; [vm_compute; reflexivity |]. split; reflexivity.
Qed.

(** C3, amended. In container mode every commander a run creates gets, as
    its state store, the persistent [state.NewPGState()] in the second
    revision and the in-memory
    [state.NewLocalState(config.Storage.StartingID)] in the first.  A run
    creates at most one commander, and it creates one whenever the flags are
    accepted and the three backends initialise. *)
Theorem C3_container_state_store (r : Revision) (w : World) (f : Flags) :
  mode f = "container" ->
  let tr := trace_of r w f in
  (forall v,
     In v (commanders tr) ->
     server.State v =
       match r with
       | Rev1 => state.NewLocalState
                   (mcc.StartingID (mcc.Storage_ (mcc_LoadConfig w "mcconfig.toml")))
       | Rev2 => state.NewPGState
       end
     /\ (persistent_state (server.State v) = true <-> r = Rev2))
  /\ (commanders tr = [] \/ exists v, commanders tr = [v])
  /\ (helpFlag f = false ->
      parseLevel (logLevel f) <> None ->
      first_init_failure r w = None ->
      exists v, commanders tr = [v]).
Proof.
  intros Hm. destruct f as [h l m d]; simpl in Hm; subst m.
  unfold first_init_failure, queue_init_error, artifact_init_error,
    database_init_error.
  destruct r, h; unfold_main; explore.
  all: repeat match goal with |- _ /\ _ => split end.
  all: simpl; try (intros ? []; fail); try (left; reflexivity);
    try (right; eexists; reflexivity).
  all: try (intros; first [discriminate | congruence | eexists; reflexivity]; fail).
  all: try (intros ? [<-|[]]; simpl; split; [reflexivity |];
            split; intros; first [discriminate | reflexivity]).
Qed.

(** A container start of the second revision with every backend up. *)
Lemma C3_witness :
  (forall v,
     In v (commanders (trace_of Rev2 calm container_flags)) ->
     server.State v = state.NewPGState
     /\ (persistent_state (server.State v) = true <-> Rev2 = Rev2))
  /\ (commanders (trace_of Rev2 calm container_flags) = []
      \/ exists v, commanders (trace_of Rev2 calm container_flags) = [v])
  /\ exists v, commanders (trace_of Rev2 calm container_flags) = [v].
Proof.
  destruct (C3_container_state_store Rev2 calm container_flags eq_refl)
    as (H1 & H2 & H3).
  split; [exact H1 |]. split; [exact H2 |].
  apply H3; [reflexivity | vm_compute; congruence | reflexivity].
Defined.

(** C4 fails in the container branches: a commander (the server) is started,
    yet no cancellable context is ever created, let alone handed to it. *)
Lemma C4_counterexample :
  in_mode "container" container_flags
  /\ List.length (commanders (trace_of Rev1 calm container_flags)) = 1%nat
  /\ tokens (trace_of Rev1 calm container_flags) = []
  /\ List.length (commanders (trace_of Rev2 calm container_flags)) = 1%nat
  /\ tokens (trace_of Rev2 calm container_flags) = [].
Proof.
  split; [repeat split; vm_compute; congruence |].
  repeat split; vm_compute; reflexivity.
Qed.

(** C4, amended. Over all runs of both revisions.
    Who creates a token: at most one cancellable context is created, and
    only by the standalone branch of the first revision; it is derived from
    the background context and is the only context ever handed to a worker
    pool or cancelled; the container branches create and cancel none.
    What the standalone branch does with it: a standalone run that reaches
    the mode switch creates the context after its one commander and before
    any worker pool, hands it to the one pool it starts, and then waits on
    the signal channel; with no signal it stays there with nothing
    cancelled, and with a signal it cancels that context, after the
    receive.
    What the container branches do: once the commander is created the run
    waits on the signal channel; with no signal it stays there, and with a
    signal it logs "Server shutdown complete", closes the broker connection
    and returns.
    Where a run waits: a signal is received only after a commander was
    created, and a run that never ends is either waiting on the signal
    channel, having received nothing, or waiting in [wg.Wait()] after the
    cancellation. *)
Theorem C4_cancellation_token_scope (r : Revision) (w : World) (f : Flags) :
  let tr := trace_of r w f in
  let token := context.WithCancel context.Background in
  let started_container := slog_Info "Started server in container mode." [] in
  let started_standalone := slog_Info "Started server and standalone agent" [] in
  (tokens tr = [] \/ tokens tr = [token])
  /\ (tokens tr <> [] -> r = Rev1 /\ in_mode "standalone" f)
  /\ (forall a, In a (worker_pools tr) -> In (wa_ctx a) (tokens tr))
  /\ precedes creates_token starts_workers tr = true
  /\ precedes creates_commander creates_token tr = true
  /\ (forall c, In c (cancelled tr) -> In c (tokens tr))
  /\ precedes receives_signal cancels tr = true
  /\ (mode f = "container" -> tokens tr = [] /\ cancelled tr = [])
  /\ (r = Rev1 -> mode f = "standalone" -> reaches_mode_switch tr = true ->
      tokens tr = [token]
      /\ List.length (commanders (before creates_token tr)) = 1%nat
      /\ worker_pools (before creates_token tr) = []
      /\ (exists a, worker_pools tr = [a] /\ wa_ctx a = token)
      /\ match delivered w with
         | None =>
             outcome_of r w f = Blocked
             /\ cancelled tr = []
             /\ last tr = Some started_standalone
         | Some s =>
             cancelled tr = [token]
             /\ received (before cancels tr) = [s]
             /\ existsb starts_workers (before receives_signal tr) = true
         end)
  /\ (mode f = "container" ->
      helpFlag f = false -> parseLevel (logLevel f) <> None ->
      first_init_failure r w = None ->
      List.length (commanders tr) = 1%nat)
  /\ (mode f = "container" -> commanders tr <> [] ->
      match delivered w with
      | None => outcome_of r w f = Blocked /\ last tr = Some started_container
      | Some s =>
          outcome_of r w f = Returned
          /\ exists q,
               last_events 4 tr
               = [started_container; recv_sigChan s;
                  slog_Info "Server shutdown complete" [];
                  rabbitMQQueue_Close q]
      end)
  /\ precedes creates_commander receives_signal tr = true
  /\ (outcome_of r w f = Blocked ->
      (delivered w = None
       /\ never receives_signal tr = true
       /\ (last tr = Some started_container \/ last tr = Some started_standalone))
      \/ (exists s,
            delivered w = Some s /\ wg_drains w = false
            /\ cancelled tr = [token] /\ last tr = Some wg_Wait)).
Proof.
  destruct f as [h l m d].
  unfold first_init_failure, queue_init_error, artifact_init_error,
    database_init_error.
  destruct r, h; unfold_main; explore; try discriminate; norm_eqb; subst.
  all: repeat match goal with |- _ /\ _ => split end.
  all: simpl; try reflexivity; try (left; reflexivity); try (right; reflexivity).
  all: try (intros ? [<-|[]]; simpl; auto; fail).
  all: try (intros ? []; fail).
  all: try (intros; discriminate).
  all: try (intros; congruence).
  all: try (intros _; split; [reflexivity | repeat split; simpl; congruence]).
  all: try (intros Hm; simpl in Hm; first [congruence | split; reflexivity]).
  all: try (intros _ _ _; repeat split; simpl; eauto; fail).
  all: try (intros _ _; repeat split; simpl; eauto; fail).
  all: try (intros _; left; repeat split; auto; fail).
  all: try (intros _; right; eexists; repeat split; simpl; auto 10; fail).
  all: try (intros; repeat split; simpl; eauto; fail).
Qed.

(** The first revision started standalone, and the second started in
    container mode, each receiving SIGTERM. *)
Lemma C4_witness :
  let token := context.WithCancel context.Background in
  (tokens (trace_of Rev1 calm main1.defaultFlags) = [token]
   /\ List.length (commanders (before creates_token
                                 (trace_of Rev1 calm main1.defaultFlags))) = 1%nat
   /\ worker_pools (before creates_token (trace_of Rev1 calm main1.defaultFlags)) = []
   /\ (exists a, worker_pools (trace_of Rev1 calm main1.defaultFlags) = [a]
                 /\ wa_ctx a = token)
   /\ cancelled (trace_of Rev1 calm main1.defaultFlags) = [token]
   /\ received (before cancels (trace_of Rev1 calm main1.defaultFlags)) = [SIGTERM]
   /\ existsb starts_workers
        (before receives_signal (trace_of Rev1 calm main1.defaultFlags)) = true)
  /\ tokens (trace_of Rev2 calm container_flags) = []
  /\ cancelled (trace_of Rev2 calm container_flags) = []
  /\ outcome_of Rev2 calm container_flags = Returned
  /\ exists q,
       last_events 4 (trace_of Rev2 calm container_flags)
       = [slog_Info "Started server in container mode." [];
          recv_sigChan SIGTERM; slog_Info "Server shutdown complete" [];
          rabbitMQQueue_Close q].
Proof.
  cbv zeta.
  destruct (C4_cancellation_token_scope Rev1 calm main1.defaultFlags)
    as (_ & _ & _ & _ & _ & _ & _ & _ & Hs & _).
  destruct (C4_cancellation_token_scope Rev2 calm container_flags)
    as (_ & _ & _ & _ & _ & _ & _ & Hn & _ & _ & Hc & _).
  split; [exact (Hs eq_refl eq_refl eq_refl) |].
  destruct (Hn eq_refl) as [Ht Hcn].
  split; [exact Ht |]. split; [exact Hcn |].
  apply (Hc eq_refl). vm_compute. discriminate.
Defined.


(** The order of the shutdown steps of the standalone branch, as the main
    goroutine performs them: the signal is received before the context is
    cancelled, the context is cancelled before the wait on the wait group,
    and "Agent shutdown complete" is logged only once that wait has
    returned.  What the worker goroutines do meanwhile is outside [main]. *)
Lemma standalone_shutdown_sequence (r : Revision) (w : World) (f : Flags) :
  let tr := trace_of r w f in
  precedes receives_signal cancels tr = true
  /\ precedes cancels waits_for_workers tr = true
  /\ precedes waits_for_workers agent_shutdown_complete tr = true
  /\ (existsb agent_shutdown_complete tr = true -> wg_drains w = true).
Proof.
  destruct f as [h l m d].
  destruct r, h; unfold_main; explore; norm_eqb; subst.
  all: repeat match goal with |- _ /\ _ => split end.
  all: simpl; try reflexivity; try (intros; discriminate).
Qed.

(** C7 fails when [--help] is given: [main] prints the usage and returns,
    so the process ends with status 0 whatever [--mode] says. *)
Lemma C7_counterexample :
  mode help_cluster_flags = "cluster"
  /\ trace_of Rev1 calm help_cluster_flags = [flag_Usage]
  /\ exit_status (outcome_of Rev1 calm help_cluster_flags) = Some 0
  /\ trace_of Rev2 calm help_cluster_flags = [flag_Usage]
  /\ exit_status (outcome_of Rev2 calm help_cluster_flags) = Some 0.
Proof. repeat split; vm_compute; reflexivity. Qed.

(** Nothing in the second revision is a single-process combination. *)
Lemma main2_never_single_process (w : World) (f : Flags) :
  forallb (fun v => negb (single_process v)) (commanders (trace_of Rev2 w f)) = true.
Proof.
  destruct f as [h l m d].
  destruct h; unfold_main; explore; reflexivity.
Qed.

(** C7, amended. Of the two revisions only the first offers the
    single-process combination.  "cluster" appears in the usage text of
    [--mode] and in the error message of the mode switch, but no branch
    implements it: every invocation with [--mode=cluster] and without
    [--help] exits with status 1, in either revision, without assembling a
    backend or creating a commander; when the verbosity is valid the last
    thing logged is the invalid-mode error. *)
Theorem C7_cluster_mode_unimplemented :
  (exists v, commanders (trace_of Rev1 calm main1.defaultFlags) = [v]
             /\ single_process v = true)
  /\ (forall w f,
        forallb (fun v => negb (single_process v))
                (commanders (trace_of Rev2 w f)) = true)
  /\ mentions "cluster" mode_usage = true
  /\ mentions "cluster" invalid_mode_message = true
  /\ (forall r w f,
        helpFlag f = false -> mode f = "cluster" ->
        outcome_of r w f = Exited 1
        /\ never assembles_backend (trace_of r w f) = true
        /\ never creates_commander (trace_of r w f) = true
        /\ (parseLevel (logLevel f) <> None ->
            last (trace_of r w f) = Some (slog_Error invalid_mode_message []))).
Proof.
  split; [eexists; split; vm_compute; reflexivity |].
  split; [apply main2_never_single_process |].
  split; [vm_compute; reflexivity |].
  split; [vm_compute; reflexivity |].
  intros r w [h l m d] Hh Hm; simpl in *; subst h m.
  destruct r; unfold_main; explore.
  all: repeat split; try reflexivity; intros; congruence.
Qed.

(** [--mode=cluster] on the second revision. *)
Lemma C7_witness :
  outcome_of Rev2 calm cluster_flags = Exited 1
  /\ never assembles_backend (trace_of Rev2 calm cluster_flags) = true
  /\ never creates_commander (trace_of Rev2 calm cluster_flags) = true
  /\ (parseLevel (logLevel cluster_flags) <> None ->
      last (trace_of Rev2 calm cluster_flags)
      = Some (slog_Error invalid_mode_message [])).
Proof.
  apply (proj2 (proj2 (proj2 (proj2 C7_cluster_mode_unimplemented)))
           Rev2 calm cluster_flags); reflexivity.
Defined.

(** C9 fails when [--help] is given: the usage is printed and [main]
    returns before the verbosity is looked at; no invalid-verbosity message,
    status 0. *)
Lemma C9_counterexample :
  ~ In (logLevel help_verbose_flags) known_levels
  /\ trace_of Rev1 calm help_verbose_flags = [flag_Usage]
  /\ exit_status (outcome_of Rev1 calm help_verbose_flags) = Some 0
  /\ trace_of Rev2 calm help_verbose_flags = [flag_Usage]
  /\ exit_status (outcome_of Rev2 calm help_verbose_flags) = Some 0.
Proof.
  split; [apply parseLevel_unknown; reflexivity |].
  repeat split; vm_compute; reflexivity.
Qed.

(** C9, amended. For every invocation without [--help] whose [--loglevel] is
    none of debug, info, warn, error, either revision prints the
    invalid-verbosity message and exits with status 1; that message is the
    whole trace, so no configuration was loaded, no signal handler installed
    and no backend assembled. *)
Theorem C9_invalid_loglevel_exits (r : Revision) (w : World) (f : Flags) :
  helpFlag f = false ->
  ~ In (logLevel f) known_levels ->
  outcome_of r w f = Exited 1
  /\ trace_of r w f
     = [log_Printf ("Invalid logging verbosity level: " +:+ logLevel f)]
  /\ never loads_config (trace_of r w f) = true
  /\ never installs_signal_handler (trace_of r w f) = true
  /\ never assembles_backend (trace_of r w f) = true.
Proof.
  intros Hh Hl. apply parseLevel_unknown in Hl.
  destruct f as [h l m d]; simpl in *; subst h.
  destruct r; unfold_main; simpl; rewrite Hl; simpl; repeat split.
Qed.

(** [--loglevel=verbose] on the first revision. *)
Lemma C9_witness :
  outcome_of Rev1 calm verbose_flags = Exited 1
  /\ trace_of Rev1 calm verbose_flags
     = [log_Printf ("Invalid logging verbosity level: " +:+ logLevel verbose_flags)]
  /\ never loads_config (trace_of Rev1 calm verbose_flags) = true
  /\ never installs_signal_handler (trace_of Rev1 calm verbose_flags) = true
  /\ never assembles_backend (trace_of Rev1 calm verbose_flags) = true.
Proof.
  apply (C9_invalid_loglevel_exits Rev1 calm verbose_flags).
  - reflexivity.
  - apply parseLevel_unknown. reflexivity.
Defined.

(** C8. A standalone run of the first revision that gets as far as the mode
    switch assembles exactly four backends, one per abstraction: the
    in-process [queue.NewQueueSingle(2)], the in-memory
    [state.NewLocalState], the in-memory artifact store and the
    local-filesystem database store rooted at the database root.  Exactly
    one commander is created, from these four: the four constructor calls
    all come before it, and it comes before the worker pool is started.  The
    pool shares the commander's queue, artifact store and database store.
    A run gets that far exactly when the flags are accepted and the database
    root is available; one that stops earlier assembles nothing. *)
Theorem C8_standalone_assembly (w : World) (f : Flags) :
  mode f = "standalone" ->
  let tr := trace_of Rev1 w f in
  let root := dbPathRoot (vars_of Rev1 w f) in
  let startingID := mcc.StartingID (mcc.Storage_ (mcc_LoadConfig w "mcconfig.toml")) in
  let v := {| server.Queue := queue.NewQueueSingle 2;
              server.State := state.NewLocalState startingID;
              server.Artifacts := artifactstore.NewInMemoryArtifactStore;
              server.CodeQLDBStore :=
                qldbstore.NewLocalFilesystemCodeQLDatabaseStore root |} in
  single_process v = true
  /\ (reaches_mode_switch tr = true ->
      List.filter assembles_backend tr
      = [call_NewQueueSingle 2; call_NewLocalState startingID;
         call_NewInMemoryArtifactStore;
         call_NewLocalFilesystemCodeQLDatabaseStore root]
      /\ commanders tr = [v]
      /\ worker_pools tr
         = [{| wa_ctx := context.WithCancel context.Background;
               wa_artifacts := server.Artifacts v;
               wa_databases := server.CodeQLDBStore v;
               wa_queue := server.Queue v;
               wa_count := 2 |}]
      /\ List.filter assembles_backend (before creates_commander tr)
         = List.filter assembles_backend tr
      /\ commanders (before starts_workers tr) = [v])
  /\ (reaches_mode_switch tr = false ->
      List.filter assembles_backend tr = []
      /\ commanders tr = [] /\ worker_pools tr = [])
  /\ (reaches_mode_switch tr = true <->
      helpFlag f = false
      /\ parseLevel (logLevel f) <> None
      /\ (dbPathRoot f = "" -> exists execPath, os_Executable w = Ok execPath)).
Proof.
  intros Hm. destruct f as [h l m d]; simpl in Hm; subst m.
  destruct h; unfold_main; explore; norm_eqb; subst.
  all: repeat match goal with |- _ /\ _ => split end.
  all: simpl; try reflexivity; try (intros; discriminate).
  all: try (intros _; repeat split; fail).
  all: try (intros (? & ? & ?); congruence).
  all: try (intros (_ & _ & H); destruct H as [? ?]; [reflexivity | congruence]).
  all: try (intros _; repeat split; first [congruence | eauto]; fail).
  all: split;
    [ intros H; first [ discriminate H
                      | repeat split;
                        first [ discriminate | eauto | intros; congruence ] ]
    | intros (H1 & H2 & H3);
      first [ discriminate | congruence | reflexivity
            | destruct H3 as [? ?]; [reflexivity | discriminate] ] ].
  all: intros Hd; contradiction.
Qed.

(** The first revision started with its default flags. *)
Lemma C8_witness :
  let w := calm in
  let f := main1.defaultFlags in
  let tr := trace_of Rev1 w f in
  let root := dbPathRoot (vars_of Rev1 w f) in
  let startingID := mcc.StartingID (mcc.Storage_ (mcc_LoadConfig w "mcconfig.toml")) in
  let v := {| server.Queue := queue.NewQueueSingle 2;
              server.State := state.NewLocalState startingID;
              server.Artifacts := artifactstore.NewInMemoryArtifactStore;
              server.CodeQLDBStore :=
                qldbstore.NewLocalFilesystemCodeQLDatabaseStore root |} in
  reaches_mode_switch tr = true
  /\ List.filter assembles_backend tr
     = [call_NewQueueSingle 2; call_NewLocalState startingID;
        call_NewInMemoryArtifactStore;
        call_NewLocalFilesystemCodeQLDatabaseStore root]
  /\ commanders tr = [v]
  /\ worker_pools tr
     = [{| wa_ctx := context.WithCancel context.Background;
           wa_artifacts := server.Artifacts v;
           wa_databases := server.CodeQLDBStore v;
           wa_queue := server.Queue v;
           wa_count := 2 |}]
  /\ List.filter assembles_backend (before creates_commander tr)
     = List.filter assembles_backend tr
  /\ commanders (before starts_workers tr) = [v].
Proof.
  cbv zeta.
  destruct (C8_standalone_assembly calm main1.defaultFlags eq_refl)
    as (_ & H & _ & _).
  split; [reflexivity |]. apply H. reflexivity.
Defined.

(** What the database-root statement does to the machine it runs on: in
    standalone mode with an empty root it warns, asks for the executable's
    path, and either stores the derived root and logs it or logs the error
    and exits with status 1; in any other mode it does nothing. *)
Lemma defaultDBPathRoot_step (w : World) (m : Machine) :
  (mode (vars m) = "standalone" -> dbPathRoot (vars m) = "" ->
   defaultDBPathRoot w m
   = match os_Executable w with
     | Ok execPath =>
         let root := filepath_Dir w execPath +:+ "/codeql/dbs/" in
         Next tt {| vars := set_dbPathRoot root (vars m);
                    trace := trace m ++
                             [slog_Warn "No database root path provided.";
                              call_os_Executable;
                              slog_Info "Using default database root path"
                                        [("dbPathRoot", root)]];
                    deferred := deferred m |}
     | Err err =>
         Halt (Exited 1)
              {| vars := vars m;
                 trace := trace m ++
                          [slog_Warn "No database root path provided.";
                           call_os_Executable;
                           slog_Error "Failed to get executable path"
                                      [("error", err)]];
                 deferred := deferred m |}
     end)
  /\ (mode (vars m) <> "standalone" -> defaultDBPathRoot w m = Next tt m).
Proof.
  destruct m as [[h l md d] tr df]; simpl. split.
  - intros -> ->. unfold defaultDBPathRoot, emit, get, put_dbPathRoot, os_Exit,
      mbind, mret, Proc_bind, Proc_ret. simpl.
    destruct (os_Executable w); simpl; rewrite <- ?app_assoc; reflexivity.
  - intros Hm. apply String.eqb_neq in Hm.
    unfold defaultDBPathRoot, get, mbind, mret, Proc_bind, Proc_ret. simpl.
    rewrite Hm. reflexivity.
Qed.

(** C10 fails before the database-root step is reached: with an unknown
    [--loglevel] the first revision, in standalone mode with an empty
    [--dbpath], exits with status 1 although the executable's path can be
    resolved, and it derives no root; with [--help] it derives none
    either. *)
Lemma C10_counterexample :
  mode verbose_standalone_flags = "standalone"
  /\ dbPathRoot verbose_standalone_flags = ""
  /\ os_Executable calm = Ok "/opt/mrva/bin/server"
  /\ exit_status (outcome_of Rev1 calm verbose_standalone_flags) = Some 1
  /\ dbPathRoot (vars_of Rev1 calm verbose_standalone_flags) = ""
  /\ mode help_standalone_flags = "standalone"
  /\ dbPathRoot help_standalone_flags = ""
  /\ trace_of Rev1 calm help_standalone_flags = [flag_Usage]
  /\ dbPathRoot (vars_of Rev1 calm help_standalone_flags) = "".
Proof. repeat split; vm_compute; reflexivity. Qed.

(** C10, amended. When the flags are accepted (no [--help], a known
    verbosity): in standalone mode with an empty [--dbpath], the first
    revision sets the database root to [filepath.Dir] of the executable's
    path followed by "/codeql/dbs/" and builds the database store on it,
    and the process exits with status 1 exactly when [os.Executable] fails.
    When the mode is not standalone, an empty [--dbpath] is still empty
    when the process stops and [os.Executable] is never called, in either
    revision and whatever the other flags. *)
Theorem C10_default_database_root :
  (forall w f,
     in_mode "standalone" f -> dbPathRoot f = "" ->
     (exit_status (outcome_of Rev1 w f) = Some 1
      <-> exists err, os_Executable w = Err err)
     /\ (forall execPath,
           os_Executable w = Ok execPath ->
           dbPathRoot (vars_of Rev1 w f)
           = filepath_Dir w execPath +:+ "/codeql/dbs/"
           /\ In (call_NewLocalFilesystemCodeQLDatabaseStore
                    (filepath_Dir w execPath +:+ "/codeql/dbs/"))
                 (trace_of Rev1 w f)))
  /\ (forall r w f,
        mode f <> "standalone" -> dbPathRoot f = "" ->
        dbPathRoot (vars_of r w f) = ""
        /\ never resolves_executable (trace_of r w f) = true).
Proof.
  split.
  - intros w [h l m d] (Hh & Hl & Hm) Hd; simpl in *; subst h m d.
    destruct (parseLevel_known _ Hl) as [lv Hlv].
    unfold_main; simpl; rewrite Hlv; simpl.
    destruct (os_Executable w) as [p|e]; simpl.
    + split.
      * destruct (delivered w); simpl; [destruct (wg_drains w); simpl |];
          (split; [intros; discriminate | intros [? ?]; discriminate]).
      * intros p' [= <-].
        destruct (delivered w); simpl; [destruct (wg_drains w); simpl |];
          (split; [reflexivity | tauto]).
    + split; [split; eauto | intros; discriminate].
  - intros r w [h l m d] Hm Hd; simpl in *; subst d.
    apply String.eqb_neq in Hm.
    destruct r, h; unfold_main; simpl; try (split; reflexivity).
    all: destruct (parseLevel l); simpl; try (split; reflexivity).
    all: rewrite Hm; explore; split; reflexivity.
Qed.

(** The first revision started with its default flags: standalone, no
    [--dbpath]. *)
Lemma C10_witness :
  (exit_status (outcome_of Rev1 calm main1.defaultFlags) = Some 1
   <-> exists err, os_Executable calm = Err err)
  /\ (forall execPath,
        os_Executable calm = Ok execPath ->
        dbPathRoot (vars_of Rev1 calm main1.defaultFlags)
        = filepath_Dir calm execPath +:+ "/codeql/dbs/"
        /\ In (call_NewLocalFilesystemCodeQLDatabaseStore
                 (filepath_Dir calm execPath +:+ "/codeql/dbs/"))
              (trace_of Rev1 calm main1.defaultFlags)).
Proof.
  apply (proj1 C10_default_database_root calm main1.defaultFlags).
  - repeat split; vm_compute; congruence.
  - reflexivity.
Defined.

(** ** Claims about the state store contract *)

Section CompleteWorkItem.
Import store.

(** What [CompleteWorkItem] finds decides what it does. *)
Lemma CompleteWorkItem_accepts (id : WorkItemID) (r : string) (s : Store) (it : WorkItem) :
  items s !! id = Some it ->
  status it = Claimed \/ status it = Executing ->
  CompleteWorkItem id r s = (with_item id (succeed r it) s, None).
Proof.
  intros Hit Hst. unfold CompleteWorkItem. rewrite Hit.
  destruct Hst as [-> | ->]; reflexivity.
Qed.

Lemma CompleteWorkItem_succeeded (id : WorkItemID) (r : string) (s : Store) (it : WorkItem) :
  items s !! id = Some it ->
  status it = Succeeded ->
  CompleteWorkItem id r s
  = (s, if decide (artifact it = Some r) then None else Some Conflict).
Proof.
  intros Hit Hst. unfold CompleteWorkItem. rewrite Hit, Hst.
  destruct (decide (artifact it = Some r)); reflexivity.
Qed.

Lemma CompleteWorkItem_keeps_on_error (id : WorkItemID) (r : string) (s : Store) :
  snd (CompleteWorkItem id r s) <> None -> fst (CompleteWorkItem id r s) = s.
Proof.
  unfold CompleteWorkItem.
  destruct (items s !! id) as [it|]; [| reflexivity].
  destruct (status it); simpl; try reflexivity; try congruence.
  destruct (decide (artifact it = Some r)); reflexivity.
Qed.

(** C5. Completing a work item a second time with the same result gives
    the store and the answer of the first call: the state is the one after
    a single call and, when the first call was accepted, the second is
    accepted too.  After an accepted completion with result [r], a
    completion with a different result is rejected as [Conflict] and the
    store is unchanged. *)
Theorem C5_complete_idempotent (id : WorkItemID) (r r' : string) (s : Store) :
  let once := CompleteWorkItem id r s in
  CompleteWorkItem id r (fst once) = once
  /\ (snd once = None ->
      r' <> r ->
      CompleteWorkItem id r' (fst once) = (fst once, Some Conflict)).
Proof.
  cbv zeta.
  destruct (items s !! id) as [it|] eqn:Hit.
  2: { assert (H : CompleteWorkItem id r s = (s, Some NotFound))
         by (unfold CompleteWorkItem; by rewrite Hit).
       rewrite H; simpl. split; [exact H | discriminate]. }
  assert (Hl : items (with_item id (succeed r it) s) !! id = Some (succeed r it))
    by apply lookup_insert_eq.
  destruct (status it) eqn:Hst.
  - assert (H : CompleteWorkItem id r s = (s, Some Conflict))
      by (unfold CompleteWorkItem; by rewrite Hit, Hst).
    rewrite H; simpl. split; [exact H | discriminate].
  - rewrite (CompleteWorkItem_accepts id r s it Hit (or_introl Hst)); simpl.
    rewrite !(CompleteWorkItem_succeeded _ _ _ _ Hl eq_refl); simpl.
    split; [by rewrite decide_True |].
    intros _ Hne. rewrite decide_False; [reflexivity | congruence].
  - rewrite (CompleteWorkItem_accepts id r s it Hit (or_intror Hst)); simpl.
    rewrite !(CompleteWorkItem_succeeded _ _ _ _ Hl eq_refl); simpl.
    split; [by rewrite decide_True |].
    intros _ Hne. rewrite decide_False; [reflexivity | congruence].
  - rewrite (CompleteWorkItem_succeeded id r s it Hit Hst); simpl.
    rewrite !(CompleteWorkItem_succeeded _ _ _ _ Hit Hst).
    destruct (decide (artifact it = Some r)) as [Ha|Ha]; simpl.
    + split; [reflexivity |].
      intros _ Hne. rewrite decide_False; [reflexivity | congruence].
    + split; [reflexivity | discriminate].
  - assert (H : CompleteWorkItem id r s = (s, Some Conflict))
      by (unfold CompleteWorkItem; by rewrite Hit, Hst).
    rewrite H; simpl. split; [exact H | discriminate].
Qed.

End CompleteWorkItem.

(** An executing item completed twice, then once more with another result. *)
Lemma C5_witness :
  let once := store.CompleteWorkItem (1, 1) "results/1/1" store.one_executing in
  store.CompleteWorkItem (1, 1) "results/1/1" (fst once) = once
  /\ snd once = None
  /\ store.CompleteWorkItem (1, 1) "results/other" (fst once)
     = (fst once, Some store.Conflict).
Proof.
  pose proof (C5_complete_idempotent (1, 1) "results/1/1" "results/other"
                store.one_executing) as [H1 H2].
  split; [exact H1 |].
  split; [reflexivity |].
  apply H2; [reflexivity | discriminate].
Defined.

Section JobStatus.
Import store.

Lemma forallb_Permutation {A} (p : A -> bool) (l l' : list A) :
  Permutation l l' -> forallb p l = forallb p l'.
Proof.
  induction 1 as [| x l l' _ IH | x y l | l l' l'' _ IH1 _ IH2]; simpl.
  - reflexivity.
  - by rewrite IH.
  - destruct (p x), (p y); reflexivity.
  - by rewrite IH1.
Qed.

Lemma existsb_Permutation {A} (p : A -> bool) (l l' : list A) :
  Permutation l l' -> existsb p l = existsb p l'.
Proof.
  induction 1 as [| x l l' _ IH | x y l | l l' l'' _ IH1 _ IH2]; simpl.
  - reflexivity.
  - by rewrite IH.
  - destruct (p x), (p y); reflexivity.
  - by rewrite IH1.
Qed.

(** The status depends on which states occur, not on their order. *)
Lemma job_status_Permutation (states states' : list WorkItemStatus) :
  Permutation states states' -> job_status states = job_status states'.
Proof.
  intros H. unfold job_status.
  rewrite !(forallb_Permutation _ _ _ H), (existsb_Permutation _ _ _ H).
  reflexivity.
Qed.

Lemma all_succeeded_terminal (states : list WorkItemStatus) :
  forallb is_succeeded states = true ->
  existsb (fun s => negb (terminal s)) states = false.
Proof.
  induction states as [| s l IH]; simpl; [reflexivity |].
  destruct s; simpl; try discriminate. exact IH.
Qed.

Lemma all_failed_terminal (states : list WorkItemStatus) :
  forallb is_failed states = true ->
  existsb (fun s => negb (terminal s)) states = false.
Proof.
  induction states as [| s l IH]; simpl; [reflexivity |].
  destruct s; simpl; try discriminate. exact IH.
Qed.

Lemma all_terminal_none_pending (states : list WorkItemStatus) :
  forallb terminal states = true ->
  existsb (fun s => negb (terminal s)) states = false.
Proof.
  induction states as [| s l IH]; simpl; [reflexivity |].
  destruct s; simpl; try discriminate; exact IH.
Qed.

Lemma all_terminal_started (states : list WorkItemStatus) :
  states <> [] ->
  existsb (fun s => negb (terminal s)) states = false ->
  forallb (fun s => negb (started s)) states = false.
Proof.
  destruct states as [| s l]; [congruence |]. intros _. simpl.
  destruct s; simpl; try discriminate; reflexivity.
Qed.

Lemma some_failed_not_all_succeeded (states : list WorkItemStatus) :
  existsb is_failed states = true -> forallb is_succeeded states = false.
Proof.
  induction states as [| s l IH]; simpl; [discriminate |].
  destruct s; simpl; try reflexivity. exact IH.
Qed.

Lemma some_succeeded_not_all_failed (states : list WorkItemStatus) :
  existsb is_succeeded states = true -> forallb is_failed states = false.
Proof.
  induction states as [| s l IH]; simpl; [discriminate |].
  destruct s; simpl; try reflexivity. exact IH.
Qed.

Lemma all_succeeded_not_all_failed (states : list WorkItemStatus) :
  states <> [] ->
  forallb is_succeeded states = true -> forallb is_failed states = false.
Proof.
  destruct states as [| s l]; [congruence |]. intros _. simpl.
  destruct s; simpl; try discriminate; reflexivity.
Qed.

(** Taken word for word the five cases overlap: a job none of whose items
    has started has a non-terminal item, so no status function satisfies
    them all. *)
Lemma word_for_word_unsatisfiable (f : list WorkItemStatus -> JobStatus) :
  ~ word_for_word f.
Proof.
  intros H.
  destruct (H [Enqueued; Enqueued]) as (H1 & H2 & _); [discriminate |].
  specialize (H1 eq_refl). specialize (H2 eq_refl). congruence.
Qed.

End JobStatus.

(** C6 fails as worded on a job whose two items are both [Enqueued]: no
    item has started, which asks for [Submitted], and an item is
    non-terminal, which asks for [Running]. *)
Lemma C6_counterexample :
  let states := [store.Enqueued; store.Enqueued] in
  forallb (fun s => negb (store.started s)) states = true
  /\ existsb (fun s => negb (store.terminal s)) states = true
  /\ store.job_status states = store.Submitted
  /\ store.job_status states <> store.Running
  /\ ~ store.word_for_word store.job_status.
Proof.
  repeat split; try reflexivity; try discriminate.
  apply word_for_word_unsatisfiable.
Qed.

(** C6, amended. The status of a job is a function of the states of its
    (one or more) work items, whatever their order: [Submitted] when no
    item has started; [Running] when some item has started and some item is
    not terminal; [Completed] when all succeeded; [PartiallyFailed] when
    all are terminal with a failure and a success among them; [Failed]
    when all failed.  The four combinations the spec lists come out as it
    says. *)
Theorem C6_job_status_derived (states : list store.WorkItemStatus) :
  states <> [] ->
  (forall states', Permutation states states' ->
                   store.job_status states' = store.job_status states)
  /\ (forallb (fun s => negb (store.started s)) states = true ->
      store.job_status states = store.Submitted)
  /\ (existsb store.started states = true ->
      existsb (fun s => negb (store.terminal s)) states = true ->
      store.job_status states = store.Running)
  /\ (forallb store.is_succeeded states = true ->
      store.job_status states = store.Completed)
  /\ (forallb store.terminal states = true ->
      existsb store.is_failed states = true ->
      existsb store.is_succeeded states = true ->
      store.job_status states = store.PartiallyFailed)
  /\ (forallb store.is_failed states = true ->
      store.job_status states = store.JobFailed)
  /\ store.job_status [store.Succeeded; store.Succeeded] = store.Completed
  /\ store.job_status [store.Succeeded; store.Failed] = store.PartiallyFailed
  /\ store.job_status [store.Failed; store.Failed] = store.JobFailed
  /\ store.job_status [store.Enqueued; store.Succeeded] = store.Running.
Proof.
  intros Hne. unfold store.job_status.
  split; [intros s' Hp; symmetry; apply job_status_Permutation, Hp |].
  split; [intros ->; reflexivity |].
  split.
  { intros Hs Hp.
    assert (Hn : forallb (fun s => negb (store.started s)) states = false).
    { clear -Hs. induction states as [| s l IH]; simpl in *; [discriminate |].
      destruct (store.started s); simpl in *; [reflexivity | auto]. }
    by rewrite Hn, Hp. }
  split.
  { intros Hs. pose proof (all_succeeded_terminal _ Hs) as Ht.
    by rewrite (all_terminal_started _ Hne Ht), Ht, Hs. }
  split.
  { intros Ht Hf Hs. apply all_terminal_none_pending in Ht.
    rewrite (all_terminal_started _ Hne Ht), Ht.
    by rewrite (some_failed_not_all_succeeded _ Hf),
         (some_succeeded_not_all_failed _ Hs). }
  split.
  { intros Hf. pose proof (all_failed_terminal _ Hf) as Ht.
    rewrite (all_terminal_started _ Hne Ht), Ht, Hf.
    destruct (forallb store.is_succeeded states) eqn:Hs; [| reflexivity].
    by rewrite (all_succeeded_not_all_failed _ Hne Hs) in Hf. }
  repeat split.
Qed.

(** A job with one item executing, one succeeded and one failed. *)
Lemma C6_witness :
  let states := [store.Executing; store.Succeeded; store.Failed] in
  (forall states', Permutation states states' ->
                   store.job_status states' = store.job_status states)
  /\ store.job_status states = store.Running
  /\ store.job_status [store.Succeeded; store.Succeeded] = store.Completed
  /\ store.job_status [store.Succeeded; store.Failed] = store.PartiallyFailed
  /\ store.job_status [store.Failed; store.Failed] = store.JobFailed
  /\ store.job_status [store.Enqueued; store.Succeeded] = store.Running.
Proof.
  destruct (C6_job_status_derived [store.Executing; store.Succeeded; store.Failed])
    as (Hp & _ & Hr & _ & _ & _ & H1 & H2 & H3 & H4); [discriminate |].
  cbv zeta. split; [exact Hp |].
  split; [apply Hr; reflexivity |].
  repeat split; assumption.
Defined.

(** ** Further properties of the two bootstraps *)

(** X1. Exit discipline.  The only exit code [main] ever passes to
    [os.Exit] is 1, and it does so only before a commander exists and
    before it waits for a signal.  Once a commander has been created the
    process either keeps running or returns with status 0; and it returns
    with status 0 only after [--help] or after a signal has been received
    by a run that created a commander. *)
Theorem X1_exit_discipline (r : Revision) (w : World) (f : Flags) :
  let tr := trace_of r w f in
  let o := outcome_of r w f in
  (forall c, o = Exited c ->
             c = 1 /\ commanders tr = [] /\ never receives_signal tr = true)
  /\ (commanders tr <> [] -> o = Returned \/ o = Blocked)
  /\ (o = Returned ->
      (helpFlag f = true /\ tr = [flag_Usage])
      \/ (helpFlag f = false /\ commanders tr <> []
          /\ existsb receives_signal tr = true))
  /\ (o = Blocked -> commanders tr <> []).
Proof.
  destruct f as [h l m d].
  destruct r, h; unfold_main; explore.
  all: repeat match goal with |- _ /\ _ => split end.
  all: simpl; try (intros; discriminate); try (intros; congruence).
  all: try (intros c [= <-]; repeat split; fail).
  all: try (intros _; left; reflexivity).
  all: try (intros _; right; reflexivity).
  all: try (intros _; left; split; reflexivity).
  all: try (intros _; right; repeat split; congruence).
Qed.

(** X2. [--help] overrides every other flag: whatever the verbosity, the
    mode and the database root, and whatever the world would answer, the
    run prints the usage, touches nothing else and returns. *)
Theorem X2_help_overrides (r : Revision) (w : World) (f : Flags) :
  helpFlag f = true ->
  trace_of r w f = [flag_Usage]
  /\ outcome_of r w f = Returned
  /\ vars_of r w f = f.
Proof.
  destruct f as [h l m d]; simpl; intros ->.
  destruct r; repeat split.
Qed.

(** [--help] together with an unknown verbosity and an unknown mode. *)
Lemma X2_witness :
  trace_of Rev1 broker_down help_verbose_flags = [flag_Usage]
  /\ outcome_of Rev1 broker_down help_verbose_flags = Returned
  /\ vars_of Rev1 broker_down help_verbose_flags = help_verbose_flags.
Proof.
  apply (X2_help_overrides Rev1 broker_down help_verbose_flags). reflexivity.
Defined.

(** X3. Orderly shutdown of the standalone server.  When a standalone run
    of the first revision returns, its last six events are, in this order:
    the signal received, "Shutting down...", the cancellation of the
    worker context, the wait on the wait group, "Agent shutdown complete"
    and "Server shutdown complete".  When the signal arrives but the wait
    group never drains, the run hangs in [wg.Wait()]: the context has been
    cancelled, and neither completion message is ever logged. *)
Theorem X3_standalone_shutdown (w : World) (f : Flags) :
  helpFlag f = false ->
  mode f = "standalone" ->
  let tr := trace_of Rev1 w f in
  (outcome_of Rev1 w f = Returned ->
   exists s,
     delivered w = Some s /\ wg_drains w = true
     /\ last_events 6 tr
        = [recv_sigChan s; slog_Info "Shutting down..." [];
           call_cancel (context.WithCancel context.Background); wg_Wait;
           slog_Info "Agent shutdown complete" [];
           slog_Info "Server shutdown complete" []])
  /\ (forall s,
        commanders tr <> [] -> delivered w = Some s -> wg_drains w = false ->
        outcome_of Rev1 w f = Blocked
        /\ last_events 4 tr
           = [recv_sigChan s; slog_Info "Shutting down..." [];
              call_cancel (context.WithCancel context.Background); wg_Wait]
        /\ never agent_shutdown_complete tr = true
        /\ ~ In (slog_Info "Server shutdown complete" []) tr).
Proof.
  destruct f as [h l m d]; simpl; intros -> ->.
  unfold_main; explore.
  all: repeat match goal with |- _ /\ _ => split end.
  all: try (intros; discriminate).
  all: try (intros _; eexists; repeat split; reflexivity).
  all: try (intros ? ? ? ?; congruence).
  all: intros ? _ [= <-] _; repeat split; try reflexivity.
  all: simpl; intuition discriminate.
Qed.

(** A standalone start whose worker pool drains after SIGTERM, and one
    whose pool never drains. *)
Lemma X3_witness :
  (exists s,
     delivered calm = Some s /\ wg_drains calm = true
     /\ last_events 6 (trace_of Rev1 calm standalone_flags)
        = [recv_sigChan s; slog_Info "Shutting down..." [];
           call_cancel (context.WithCancel context.Background); wg_Wait;
           slog_Info "Agent shutdown complete" [];
           slog_Info "Server shutdown complete" []])
  /\ outcome_of Rev1 stuck_workers standalone_flags = Blocked
  /\ last_events 4 (trace_of Rev1 stuck_workers standalone_flags)
     = [recv_sigChan SIGTERM; slog_Info "Shutting down..." [];
        call_cancel (context.WithCancel context.Background); wg_Wait]
  /\ never agent_shutdown_complete (trace_of Rev1 stuck_workers standalone_flags)
     = true.
Proof.
  split.
  - apply (proj1 (X3_standalone_shutdown calm standalone_flags eq_refl eq_refl)).
    reflexivity.
  - destruct (proj2 (X3_standalone_shutdown stuck_workers standalone_flags
                       eq_refl eq_refl) SIGTERM)
      as (H1 & H2 & H3 & _); [vm_compute; discriminate | reflexivity | reflexivity |].
    repeat split; assumption.
Defined.

(** X4. The deferred [rabbitMQQueue.Close()].  In every run of either
    revision the broker connection is closed at most once, and only when
    [main] returns: the close is then the very last event, after "Server
    shutdown complete", and closes the queue that was handed to the
    commander.  On every [os.Exit] and on every run that keeps waiting the
    connection is never closed, even though it may have been opened. *)
Theorem X4_deferred_close (r : Revision) (w : World) (f : Flags) :
  let tr := trace_of r w f in
  (List.length (List.filter closes_queue tr) <= 1)%nat
  /\ (forall q,
        In (rabbitMQQueue_Close q) tr ->
        outcome_of r w f = Returned
        /\ last_events 2 tr
           = [slog_Info "Server shutdown complete" []; rabbitMQQueue_Close q]
        /\ deploy_InitRabbitMQ w false = Ok q
        /\ exists v, commanders tr = [v] /\ server.Queue v = queue.RabbitMQ q)
  /\ (outcome_of r w f <> Returned -> never closes_queue tr = true)
  /\ (outcome_of r w f = Returned -> mode f = "container" -> helpFlag f = false ->
      existsb closes_queue tr = true).
Proof.
  destruct f as [h l m d].
  destruct r, h; unfold_main; explore; norm_eqb; subst.
  all: repeat match goal with |- _ /\ _ => split end.
  all: simpl; try lia; try reflexivity; try (intros; congruence).
  all: try (intros q Hin; exfalso; simpl in Hin; intuition discriminate).
  all: intros q Hin; simpl in Hin;
    repeat (destruct Hin as [Hin|Hin]; try discriminate Hin);
    try contradiction;
    injection Hin as <-; repeat split; eauto.
Qed.

(** A container start in which the broker connects and the artifact store
    does not: the process exits and the connection is never closed. *)
Lemma X4_witness :
  In (call_InitRabbitMQ false) (trace_of Rev2 artifacts_down container_flags)
  /\ outcome_of Rev2 artifacts_down container_flags = Exited 1
  /\ never closes_queue (trace_of Rev2 artifacts_down container_flags) = true.
Proof.
  split; [vm_compute; tauto |]. split; [reflexivity |].
  apply (X4_deferred_close Rev2 artifacts_down container_flags).
  vm_compute. discriminate.
Defined.

(** X5. Without a signal a started server never stops by itself.  In every
    run that created a commander and to which no signal is delivered, the
    process is left waiting on the signal channel: the last thing it did is
    log that it has started, and it has neither cancelled a context, nor
    waited for the workers, nor closed the broker connection. *)
Theorem X5_runs_until_signalled (r : Revision) (w : World) (f : Flags) :
  commanders (trace_of r w f) <> [] ->
  delivered w = None ->
  let tr := trace_of r w f in
  outcome_of r w f = Blocked
  /\ (last tr = Some (slog_Info "Started server in container mode." [])
      \/ last tr = Some (slog_Info "Started server and standalone agent" []))
  /\ never cancels tr = true
  /\ never waits_for_workers tr = true
  /\ never closes_queue tr = true.
Proof.
  destruct f as [h l m d].
  destruct r, h; unfold_main; explore.
  all: try (intros; congruence).
  all: intros _ _; repeat split; auto.
Qed.

(** A container start of the second revision to which no signal comes. *)
Lemma X5_witness :
  let w := with_delivered None calm in
  outcome_of Rev2 w container_flags = Blocked
  /\ (last (trace_of Rev2 w container_flags)
      = Some (slog_Info "Started server in container mode." [])
      \/ last (trace_of Rev2 w container_flags)
         = Some (slog_Info "Started server and standalone agent" []))
  /\ never cancels (trace_of Rev2 w container_flags) = true
  /\ never waits_for_workers (trace_of Rev2 w container_flags) = true
  /\ never closes_queue (trace_of Rev2 w container_flags) = true.
Proof.
  apply (X5_runs_until_signalled Rev2 (with_delivered None calm) container_flags).
  - vm_compute. discriminate.
  - reflexivity.
Defined.

(** X6. [--dbpath] has no effect outside standalone mode: for any mode
    other than standalone, a run with a database root [p] produces the same
    trace and the same outcome as the run without it. *)
Theorem X6_dbpath_ignored_outside_standalone
  (r : Revision) (w : World) (f : Flags) (p : string) :
  mode f <> "standalone" ->
  trace_of r w (set_dbPathRoot p f) = trace_of r w f
  /\ outcome_of r w (set_dbPathRoot p f) = outcome_of r w f.
Proof.
  destruct f as [h l m d]; simpl; intros Hm.
  apply String.eqb_neq in Hm.
  destruct r, h; unfold_main; simpl; try (split; reflexivity).
  all: destruct (parseLevel l); simpl; try (split; reflexivity).
  all: rewrite ?Hm; explore; try discriminate; split; reflexivity.
Qed.

(** A container start with and without [--dbpath=/srv/dbs]. *)
Lemma X6_witness :
  trace_of Rev1 calm (set_dbPathRoot "/srv/dbs" container_flags)
  = trace_of Rev1 calm container_flags
  /\ outcome_of Rev1 calm (set_dbPathRoot "/srv/dbs" container_flags)
     = outcome_of Rev1 calm container_flags.
Proof.
  apply (X6_dbpath_ignored_outside_standalone Rev1 calm container_flags "/srv/dbs").
  discriminate.
Defined.

(** X7. What a run does to the flag variables.  [*helpFlag], [*logLevel]
    and [*mode] are never written.  [*dbPathRoot] is written only in
    standalone mode, only when it was empty, and only when [os.Executable]
    succeeded; it then holds the derived root. *)
Theorem X7_flags_preserved (r : Revision) (w : World) (f : Flags) :
  let f' := vars_of r w f in
  helpFlag f' = helpFlag f
  /\ logLevel f' = logLevel f
  /\ mode f' = mode f
  /\ (dbPathRoot f' = dbPathRoot f
      \/ (mode f = "standalone" /\ dbPathRoot f = ""
          /\ exists execPath,
               os_Executable w = Ok execPath
               /\ dbPathRoot f' = filepath_Dir w execPath +:+ "/codeql/dbs/")).
Proof.
  destruct f as [h l m d].
  destruct r, h; unfold_main; explore; try discriminate; norm_eqb; subst.
  all: repeat split; try (left; reflexivity).
  all: right; repeat split; eexists; split; reflexivity.
Qed.

(** X8. A database root given on the command line is used as it is: in
    every run with a non-empty [--dbpath], [os.Executable] is never called,
    no default is logged, the flags are unchanged, and every
    local-filesystem database store that is built is rooted at exactly that
    path. *)
Theorem X8_given_dbpath_verbatim (r : Revision) (w : World) (f : Flags) :
  dbPathRoot f <> "" ->
  let tr := trace_of r w f in
  never resolves_executable tr = true
  /\ vars_of r w f = f
  /\ (forall root,
        In (call_NewLocalFilesystemCodeQLDatabaseStore root) tr ->
        root = dbPathRoot f)
  /\ (forall v,
        In v (commanders tr) -> mode f = "standalone" ->
        server.CodeQLDBStore v
        = qldbstore.NewLocalFilesystemCodeQLDatabaseStore (dbPathRoot f)).
Proof.
  destruct f as [h l m d]; simpl; intros Hd.
  apply String.eqb_neq in Hd.
  destruct r, h; unfold_main; simpl.
  all: try (repeat split; intros ? []; fail).
  all: destruct (parseLevel l); simpl.
  all: rewrite ?Hd, ?andb_false_r; explore; try discriminate; norm_eqb; subst.
  all: repeat match goal with |- _ /\ _ => split end; try reflexivity.
  all: simpl; try (intros ? []; fail).
  all: try (intros ? Hin; repeat (destruct Hin as [Hin|Hin]; try discriminate Hin);
            try contradiction; congruence).
  all: try (intros ? [<-|[]] _; reflexivity).
  all: try (intros ? [<-|[]] ?; congruence).
Qed.

(** A standalone start with [--dbpath=/srv/dbs]. *)
Lemma X8_witness :
  never resolves_executable (trace_of Rev1 calm standalone_dbpath_flags) = true
  /\ vars_of Rev1 calm standalone_dbpath_flags = standalone_dbpath_flags
  /\ (forall root,
        In (call_NewLocalFilesystemCodeQLDatabaseStore root)
           (trace_of Rev1 calm standalone_dbpath_flags) ->
        root = dbPathRoot standalone_dbpath_flags)
  /\ (forall v,
        In v (commanders (trace_of Rev1 calm standalone_dbpath_flags)) ->
        mode standalone_dbpath_flags = "standalone" ->
        server.CodeQLDBStore v
        = qldbstore.NewLocalFilesystemCodeQLDatabaseStore
            (dbPathRoot standalone_dbpath_flags)).
Proof.
  apply (X8_given_dbpath_verbatim Rev1 calm standalone_dbpath_flags).
  discriminate.
Defined.

(** X9. Standalone mode in the second revision.  With accepted flags,
    [--mode=standalone] always ends in [os.Exit(1)] with no backend
    assembled and no commander.  The database-root step still runs first:
    with an empty [--dbpath] the executable's path is resolved and the
    default root is logged before the mode is rejected as deprecated, and
    when [os.Executable] fails the run stops on that error instead, before
    the signal handler is installed. *)
Theorem X9_rev2_standalone_deprecated (w : World) (f : Flags) :
  helpFlag f = false ->
  parseLevel (logLevel f) <> None ->
  mode f = "standalone" ->
  let tr := trace_of Rev2 w f in
  outcome_of Rev2 w f = Exited 1
  /\ never assembles_backend tr = true
  /\ commanders tr = []
  /\ (reaches_mode_switch tr = true ->
      last tr = Some (slog_Error deprecated_mode_message []))
  /\ (dbPathRoot f <> "" -> reaches_mode_switch tr = true)
  /\ (dbPathRoot f = "" ->
      match os_Executable w with
      | Ok execPath =>
          reaches_mode_switch tr = true
          /\ In (slog_Info "Using default database root path"
                   [("dbPathRoot", filepath_Dir w execPath +:+ "/codeql/dbs/")]) tr
      | Err err =>
          reaches_mode_switch tr = false
          /\ last tr = Some (slog_Error "Failed to get executable path"
                               [("error", err)])
      end).
Proof.
  destruct f as [h l m d]; simpl; intros -> Hl ->.
  destruct (parseLevel_known _ Hl) as [lv Hlv].
  unfold_main; simpl; rewrite Hlv; simpl.
  destruct (String.eqb_spec d "") as [->|Hd]; simpl.
  - destruct (os_Executable w); simpl; repeat split; try congruence; tauto.
  - repeat split; try congruence.
Qed.

(** The second revision started with [--mode=standalone] and no [--dbpath]. *)
Lemma X9_witness :
  let tr := trace_of Rev2 calm standalone_flags in
  outcome_of Rev2 calm standalone_flags = Exited 1
  /\ never assembles_backend tr = true
  /\ commanders tr = []
  /\ last tr = Some (slog_Error deprecated_mode_message [])
  /\ In (slog_Info "Using default database root path"
           [("dbPathRoot", "/opt/mrva/bin/codeql/dbs/")]) tr.
Proof.
  cbv zeta.
  destruct (X9_rev2_standalone_deprecated calm standalone_flags eq_refl)
    as (H1 & H2 & H3 & H4 & _ & H6); [vm_compute; congruence | reflexivity |].
  specialize (H6 eq_refl). simpl in H6. destruct H6 as [H6 H7].
  repeat split; auto.
Defined.

(** X10. The order of startup.  In every run the signal handler is
    installed at most once, for exactly SIGINT and SIGTERM, and before any
    backend is constructed or initialised, so that a signal arriving during
    assembly is caught.  The log level is set at most once and before
    everything else the run logs or calls.  The first revision loads
    [mcconfig.toml] exactly when it installs the handler, and before doing
    so, whatever the mode; the second never loads a configuration. *)
Theorem X10_startup_order (r : Revision) (w : World) (f : Flags) :
  let tr := trace_of r w f in
  (List.length (List.filter installs_signal_handler tr) <= 1)%nat
  /\ (forall sigs, In (signal_Notify sigs) tr -> sigs = [SIGINT; SIGTERM])
  /\ precedes installs_signal_handler assembles_backend tr = true
  /\ (existsb sets_level tr = true ->
      exists lv rest,
        parseLevel (logLevel f) = Some lv
        /\ tr = slog_SetLogLoggerLevel lv :: rest
        /\ never sets_level rest = true)
  /\ match r with
     | Rev1 =>
         precedes loads_config installs_signal_handler tr = true
         /\ existsb loads_config tr = reaches_mode_switch tr
         /\ (forall fname, In (call_LoadConfig fname) tr -> fname = "mcconfig.toml")
     | Rev2 => never loads_config tr = true
     end.
Proof.
  destruct f as [h l m d].
  destruct r, h; unfold_main; explore; try discriminate; norm_eqb; subst.
  all: repeat match goal with |- _ /\ _ => split end.
  all: simpl; try lia; try reflexivity; try (intros; discriminate).
  all: try (intros ? Hin; repeat (destruct Hin as [Hin|Hin]; try discriminate Hin);
            try contradiction; congruence).
  all: intros _; eexists; eexists; repeat split.
Qed.

(** X11. The configuration summary.  A run gets as far as the mode switch
    only without [--help], and the lines it has then printed with
    [log.Printf] are exactly the three summary lines: they report the log
    level and the mode as given, and the [Help:] line reads [false].  A
    run without [--help] that stops earlier has printed either nothing with
    [log.Printf] or only the invalid-verbosity message, and has then done
    nothing else.  (With [--help] the usage closure prints through the same
    logger; that output is the one event [flag_Usage] and is not described
    here.) *)
Theorem X11_configuration_summary (r : Revision) (w : World) (f : Flags) :
  let tr := trace_of r w f in
  (reaches_mode_switch tr = true ->
   helpFlag f = false
   /\ List.filter is_log_Printf tr
      = [log_Printf ("Help: " +:+ fmt_bool false +:+ nl);
         log_Printf ("Log Level: " +:+ logLevel f +:+ nl);
         log_Printf ("Mode: " +:+ mode f +:+ nl)])
  /\ (helpFlag f = false ->
      reaches_mode_switch tr = false ->
      List.filter is_log_Printf tr = []
      \/ tr = [log_Printf ("Invalid logging verbosity level: " +:+ logLevel f)]).
Proof.
  destruct f as [h l m d].
  destruct r, h; unfold_main; explore.
  all: repeat match goal with |- _ /\ _ => split end.
  all: simpl; try reflexivity; try (intros; discriminate).
  all: try (intros _ _; left; reflexivity).
  all: try (intros _ _; right; reflexivity).
  all: try (intros _; repeat split; fail).
Qed.

(** X12. Initialisation is fail-fast and in a fixed order.  The
    [deploy.Init...] calls of a run form a prefix of: message queue (always
    with [isAgent = false]), artifact store, database store.  A run makes
    such a call only in container mode, and when a call fails it is the
    last initialisation the run attempts. *)
Theorem X12_init_fail_fast (r : Revision) (w : World) (f : Flags) :
  let tr := trace_of r w f in
  init_calls tr `prefix_of`
    [call_InitRabbitMQ false; call_InitMinIOArtifactStore; database_init_call r]
  /\ (init_calls tr <> [] -> mode f = "container" /\ helpFlag f = false)
  /\ (existsb (init_failed w) tr = true ->
      exists e, last (init_calls tr) = Some e /\ init_failed w e = true)
  /\ (existsb (init_failed w) tr = false ->
      init_calls tr = []
      \/ init_calls tr
         = [call_InitRabbitMQ false; call_InitMinIOArtifactStore;
            database_init_call r]).
Proof.
  destruct f as [h l m d].
  destruct r, h; unfold_main; explore; try discriminate; norm_eqb; subst.
  all: repeat match goal with H : _ = _ |- _ => rewrite H end; simpl.
  all: repeat match goal with |- _ /\ _ => split end.
  all: try (eexists; reflexivity).
  all: try (intros; congruence).
  all: try (intros _; split; reflexivity).
  all: try (intros _; left; reflexivity).
  all: try (intros _; right; reflexivity).
  all: intros _; eexists; split; [reflexivity |]; simpl;
    repeat match goal with H : _ = _ |- _ => rewrite H end; reflexivity.
Qed.

(** X13. SIGINT and SIGTERM are handled alike: whichever of the two is
    delivered, the outcome of the run is the same, and so is its trace up
    to the identity of the signal in the receive event. *)
Theorem X13_signal_kind_irrelevant
  (r : Revision) (w : World) (f : Flags) (s s' : Signal) :
  outcome_of r (with_delivered (Some s) w) f
  = outcome_of r (with_delivered (Some s') w) f
  /\ map forget_signal (trace_of r (with_delivered (Some s) w) f)
     = map forget_signal (trace_of r (with_delivered (Some s') w) f).
Proof.
  destruct f as [h l m d].
  destruct r, h; unfold_main; unfold with_delivered; explore;
    split; reflexivity.
Qed.

(** X14. Where the two revisions agree.  For [--help], for an unknown
    verbosity, and for any mode other than standalone and container, the
    two revisions end the same way, and the trace of the second is the
    trace of the first without the loading of [mcconfig.toml]. *)
Theorem X14_revisions_agree (w : World) (f : Flags) :
  helpFlag f = true \/ parseLevel (logLevel f) = None
    \/ (mode f <> "standalone" /\ mode f <> "container") ->
  outcome_of Rev2 w f = outcome_of Rev1 w f
  /\ trace_of Rev2 w f
     = List.filter (fun e => negb (loads_config e)) (trace_of Rev1 w f).
Proof.
  destruct f as [h l m d]; simpl.
  unfold_main; destruct h; simpl; [split; reflexivity |].
  destruct (parseLevel l) eqn:Hl; simpl; [| split; reflexivity].
  intros [H | [H | [H1 H2]]]; try discriminate.
  apply String.eqb_neq in H1, H2.
  repeat (rewrite ?H1, ?H2; simpl). split; reflexivity.
Qed.

(** [--mode=cluster] on both revisions. *)
Lemma X14_witness :
  outcome_of Rev2 calm cluster_flags = outcome_of Rev1 calm cluster_flags
  /\ trace_of Rev2 calm cluster_flags
     = List.filter (fun e => negb (loads_config e)) (trace_of Rev1 calm cluster_flags).
Proof.
  apply (X14_revisions_agree calm cluster_flags).
  right. right. split; discriminate.
Defined.

(** X15. Which modes are accepted.  The mode is compared as an exact
    string: a commander is created only for [container], and in the first
    revision also for [standalone].  Any other value, not only [cluster],
    makes a run without [--help] exit with status 1 with no backend
    assembled; when the verbosity is valid, the run gets as far as the mode
    switch and its last act is to log the invalid-mode error. *)
Theorem X15_accepted_modes (r : Revision) (w : World) (f : Flags) :
  let tr := trace_of r w f in
  (commanders tr <> [] ->
   mode f = "container" \/ (r = Rev1 /\ mode f = "standalone"))
  /\ (helpFlag f = false ->
      mode f <> "standalone" -> mode f <> "container" ->
      outcome_of r w f = Exited 1
      /\ never assembles_backend tr = true
      /\ (parseLevel (logLevel f) <> None ->
          reaches_mode_switch tr = true
          /\ last tr = Some (slog_Error invalid_mode_message []))).
Proof.
  destruct f as [h l m d].
  destruct r, h; unfold_main; explore; try discriminate; norm_eqb; subst.
  all: repeat match goal with |- _ /\ _ => split end.
  all: simpl; try (intros; congruence).
  all: try (intros _; left; reflexivity).
  all: try (intros _; right; split; reflexivity).
  all: try (intros _ _ _; repeat split; intros; congruence).
Qed.

(** [--mode=Container], with a capital, on the second revision. *)
Lemma X15_witness :
  let f := {| helpFlag := false; logLevel := "debug"; mode := "Container";
              dbPathRoot := "" |} in
  outcome_of Rev2 calm f = Exited 1
  /\ never assembles_backend (trace_of Rev2 calm f) = true
  /\ (parseLevel (logLevel f) <> None ->
      reaches_mode_switch (trace_of Rev2 calm f) = true
      /\ last (trace_of Rev2 calm f) = Some (slog_Error invalid_mode_message [])).
Proof.
  cbv zeta.
  apply (proj2 (X15_accepted_modes Rev2 calm
                  {| helpFlag := false; logLevel := "debug"; mode := "Container";
                     dbPathRoot := "" |}));
    [reflexivity | discriminate | discriminate].
Defined.
